(** * The calculation gateway of app/app.py, embedded and verified

    The Flask application of [src/app/app.py] accepts MODFLOW job documents,
    keeps a registry table of them, and serves queries over the result files
    of a job.  This development embeds the handlers as functions in a small
    state-and-exception monad over an explicit world (filesystem, registry
    table, working directory, reader calls) and proves the properties of the
    submission gateway and of the result queries.

    What the program only consumes is a field of [Env]: the JSON codec, the
    text decoder of [open], the remote schema validation, the clock, the
    uuid source, the FlopyAdapter readers and Python's [int]/[float]/[str]. *)

From Stdlib Require Import ZArith String Ascii List Bool Floats.
From stdpp Require Import gmap strings list fin_maps pretty.

#[local] Set Warnings "-register-all".
Local Open Scope Z_scope.

(** ** Data *)

(** A JSON value as [json.loads] builds it; a dict keeps its items in order. *)
Inductive json : Type :=
  | JNull
  | JBool (b : bool)
  | JNum (n : Z)
  | JFloat (x : float)
  | JStr (s : string)
  | JList (l : list json)
  | JDict (d : list (string * json)).

(** A path is the list of its components below the root: ['/modflow'] is
    [["modflow"]].  A relative path such as ['./uploads'] is the list of its
    components below the working directory, and is resolved against [cwd]
    where it is used. *)
Definition path := list string.

Inductive node : Type :=
  | File (content : string)
  | Dir.

(** One row of the table [calculations]; the row id is the position. *)
Record CalculationRecord := {
  calculation_id : string;
  state : Z;
  message : option string;
  created_at : Z;
  updated_at : Z
}.

Inductive ResultKind := KHead | KDrawdown | KBudget | KConcentration.

(** What a FlopyAdapter reader answers; [None] is a call that raises. *)
Record Reader := {
  times : list float;
  number_of_layers : Z;
  number_of_substances : Z;
  layer_array : float -> Z -> option json;
  time_series : Z -> Z -> Z -> option json;
  budget_by_totim : float -> bool -> option json;
  budget_by_idx : Z -> bool -> option json;
  concentration_array : Z -> float -> Z -> option json
}.

(** The calls made on readers, in order. *)
Inductive ReaderCall :=
  | RdTimes (k : ResultKind)
  | RdLayers (k : ResultKind)
  | RdSubstances
  | RdLayer (k : ResultKind) (totim : float) (layer : Z)
  | RdTs (k : ResultKind) (layer row col : Z)
  | RdBudgetTotim (totim : float) (incremental : bool)
  | RdBudgetIdx (idx : Z) (incremental : bool)
  | RdConcentration (substance : Z) (totim : float) (layer : Z).

(** The calls that fetch an array (or a series, or a budget). *)
Definition is_array_read (c : ReaderCall) : bool :=
  match c with
  | RdTimes _ | RdLayers _ | RdSubstances => false
  | _ => true
  end.

(** The three statements of a [try] block of [is_valid]: fetch the schema,
    parse it, validate the instance. *)
Inductive SchemaOutcome :=
  | Conforms
  | ValidationError     (* jsonschema.exceptions.ValidationError *)
  | URLError            (* urlopen raised: unreachable, timeout *)
  | JSONDecodeError     (* the response is not JSON *)
  | SchemaError.        (* the response is not a schema *)

Inductive Exn :=
  | ExFileNotFound | ExFileExists | ExIsADirectory | ExNotADirectory
  | ExUnicodeDecode | ExValue | ExType | ExKey | ExAttribute
  | ExValidation | ExURL | ExJSONDecode | ExSchema | ExReader.

Record World := {
  fs : gmap path node;
  db : list CalculationRecord;
  cwd : path;
  ticks : nat;          (* calls of datetime.now() so far *)
  uuids : nat;          (* calls of uuid.uuid4() so far *)
  trace : list ReaderCall
}.

(** [json_loads] is [json.loads] on the bytes of a request body, as
    [get_json(force=True)] calls it.  [json_loads_text] is what [read_json]
    does with the bytes of a file: [open(file).read()], the text-mode read
    of the platform, and then [json.loads] on the [str]; [None] is a
    [ValueError] of either step ([UnicodeDecodeError] and [JSONDecodeError]
    are both [ValueError]s).  The two need not agree: a body that starts with
    a byte order mark parses, the same bytes read from a file do not.
    [on_json_loading_failed] is the description Flask gives the 400 it
    raises for a body that does not parse.  [decode] is the codec of a
    text-mode [open]. *)
Record Env := {
  json_loads : string -> option json;
  on_json_loading_failed : string -> json;
  json_loads_text : string -> option json;
  json_dumps : json -> string;
  decode : string -> option string;
  schema_validate : string -> json -> SchemaOutcome;
  clock : nat -> Z;
  uuid4 : nat -> string;
  reader_of : ResultKind -> gmap path node -> path -> Reader;
  py_int : string -> option Z;
  py_float : string -> option float;
  str_float : float -> string;
  read_csv : string -> option string
}.

(** What a view hands back to Flask. *)
Inductive Response :=
  | Body (s : string)
  | RedirectTo (location : string)
  | Template (name : string) (context : list (string * json))
  | Attachment (mimetype : string) (entries : list (string * string))
               (attachment_filename : string).

(** How a computation ends: a value, [abort(code, description)], or an
    exception nobody catches (Flask answers 500). *)
Inductive Outcome (A : Type) :=
  | Val (a : A)
  | Abort (code : Z) (description : json)
  | Raise (e : Exn).
Arguments Val {A} a.
Arguments Abort {A} code description.
Arguments Raise {A} e.

(** ** The monad *)

Definition M (A : Type) : Type := World -> Outcome A * World.

Definition ret {A} (a : A) : M A := fun w => (Val a, w).

Definition bind {A B} (c : M A) (k : A -> M B) : M B :=
  fun w =>
    match c w with
    | (Val a, w') => k a w'
    | (Abort code d, w') => (Abort code d, w')
    | (Raise e, w') => (Raise e, w')
    end.

Definition abort {A} (code : Z) (description : json) : M A :=
  fun w => (Abort code description, w).

Definition raise {A} (e : Exn) : M A := fun w => (Raise e, w).

Definition gets {A} (f : World -> A) : M A := fun w => (Val (f w), w).

Definition modify (f : World -> World) : M unit := fun w => (Val tt, f w).

Declare Scope py_scope.
Delimit Scope py_scope with py.
Notation "x <- c1 ;; c2" := (bind c1 (fun x => c2))
  (at level 100, c1 at next level, right associativity) : py_scope.
Notation "c1 ;;; c2" := (bind c1 (fun _ => c2))
  (at level 100, right associativity) : py_scope.
Local Open Scope py_scope.

Definition when (b : bool) (c : M unit) : M unit := if b then c else ret tt.

Definition set_fs (f : gmap path node) (w : World) : World :=
  {| fs := f; db := db w; cwd := cwd w; ticks := ticks w; uuids := uuids w;
     trace := trace w |}.

Definition set_db (d : list CalculationRecord) (w : World) : World :=
  {| fs := fs w; db := d; cwd := cwd w; ticks := ticks w; uuids := uuids w;
     trace := trace w |}.

Definition set_cwd (p : path) (w : World) : World :=
  {| fs := fs w; db := db w; cwd := p; ticks := ticks w; uuids := uuids w;
     trace := trace w |}.

Definition tick (w : World) : World :=
  {| fs := fs w; db := db w; cwd := cwd w; ticks := S (ticks w);
     uuids := uuids w; trace := trace w |}.

Definition draw (w : World) : World :=
  {| fs := fs w; db := db w; cwd := cwd w; ticks := ticks w;
     uuids := S (uuids w); trace := trace w |}.

Definition log (c : ReaderCall) (w : World) : World :=
  {| fs := fs w; db := db w; cwd := cwd w; ticks := ticks w; uuids := uuids w;
     trace := trace w ++ [c] |}.

(** ** Strings *)

(** [sub in s] *)
Fixpoint str_contains (sub s : string) : bool :=
  if String.prefix sub s then true
  else match s with
       | EmptyString => false
       | String _ s' => str_contains sub s'
       end.

(** [s.endswith(suffix)] *)
Fixpoint str_endswith (suffix s : string) : bool :=
  if String.eqb s suffix then true
  else match s with
       | EmptyString => false
       | String _ s' => str_endswith suffix s'
       end.

(** The blocks a file opened with ['rb'] yields when iterated: each ends
    with its newline byte, but for the last. *)
Fixpoint readlines (s : string) : list string :=
  match s with
  | EmptyString => []
  | String c s' =>
      if Ascii.eqb c "010"%char then String c EmptyString :: readlines s'
      else match readlines s' with
           | [] => [String c EmptyString]
           | l :: ls => String c l :: ls
           end
  end.

Definition NUL : string := String "000"%char EmptyString.
Definition CR : string := String "013"%char EmptyString.
Definition LF : string := String "010"%char EmptyString.

(** What a text-mode read (the default [newline=None]) makes of the decoded
    text: [CR LF] and a lone [CR] both become [LF]. *)
Fixpoint universal_newlines (s : string) : string :=
  match s with
  | EmptyString => EmptyString
  | String c s' =>
      if Ascii.eqb c "013"%char
      then match s' with
           | String "010"%char s'' => String "010"%char (universal_newlines s'')
           | _ => String "010"%char (universal_newlines s')
           end
      else String c (universal_newlines s')
  end.

(** ** JSON values as Python objects *)

Fixpoint assoc {A} (k : string) (d : list (string * A)) : option A :=
  match d with
  | [] => None
  | (k', v) :: d' => if String.eqb k k' then Some v else assoc k d'
  end.

(** [o.get(k)]: only a dict has the method; a missing key gives [None]. *)
Definition py_get (o : json) (k : string) : M json :=
  match o with
  | JDict d => ret (default JNull (assoc k d))
  | _ => raise ExAttribute
  end.

(** [o[k]] for a string key *)
Definition py_item (o : json) (k : string) : M json :=
  match o with
  | JDict d => match assoc k d with
               | Some v => ret v
               | None => raise ExKey
               end
  | _ => raise ExType
  end.

(** The truth value of an object, as [if mt:] tests it. *)
Definition truthy (o : json) : bool :=
  match o with
  | JNull => false
  | JBool b => b
  | JNum n => negb (Z.eqb n 0)
  | JFloat x => negb (PrimFloat.eqb x 0%float)
  | JStr s => negb (String.eqb s "")
  | JList l => match l with [] => false | _ => true end
  | JDict d => match d with [] => false | _ => true end
  end.

(** ** The filesystem *)

(** ['/modflow'] is absolute; ['./uploads'] is relative to the working
    directory of the process. *)
Definition MODFLOW_FOLDER : path := ["modflow"].
Definition UPLOAD_FOLDER : path := ["uploads"].
Definition SCHEMA_SERVER_URL : string := "https://schema.inowas.com".

(** [os.path.join(folder, name)] for a [name] that is one plain component
    (see [plain_component] below): the path one level under [folder].  A
    name that is empty, [.] or [..], or that holds a [/], names another place
    (the folder itself, its parent, a deeper or an absolute path); what is
    proved about where a job's files lie is stated for plain ids. *)
Definition os_path_join (folder : path) (name : string) : path := folder ++ [name].

(** A relative path, resolved against the working directory. *)
Definition abspath (p : path) (w : World) : path := cwd w ++ p.

Definition parent (p : path) : path := removelast p.

(** [os.path.exists] *)
Definition exists_in (f : gmap path node) (p : path) : bool :=
  match f !! p with Some _ => true | None => false end.

Definition os_path_exists (p : path) : M bool := gets (fun w => exists_in (fs w) p).

(** [os.path.isfile] *)
Definition os_path_isfile (p : path) : M bool :=
  gets (fun w => match fs w !! p with Some (File _) => true | _ => false end).

Definition is_dir (f : gmap path node) (p : path) : bool :=
  match p with
  | [] => true
  | _ => match f !! p with Some Dir => true | _ => false end
  end.

(** The non-empty prefixes of a path, shortest first. *)
Definition inits (p : path) : list path :=
  map (fun n => take n p) (seq 1%nat (length p)).

(** [os.makedirs(d)]: the leaf must be new, every missing ancestor is made. *)
Definition os_makedirs (d : path) : M unit :=
  f <- gets fs ;;
  if exists_in f d then raise ExFileExists
  else if existsb (fun a => match f !! a with Some (File _) => true | _ => false end)
                  (inits d)
  then raise ExNotADirectory
  else modify (set_fs (foldr (fun a g => <[a := Dir]> g) f (inits d))).

(** [open(p, 'w')] followed by the write: the bytes [data] replace the file. *)
Definition write_file (p : path) (data : string) : M unit :=
  f <- gets fs ;;
  match f !! p with
  | Some Dir => raise ExIsADirectory
  | _ => if is_dir f (parent p) then modify (set_fs (<[p := File data]> f))
         else if exists_in f (parent p) then raise ExNotADirectory
         else raise ExFileNotFound
  end.

(** The bytes of a file, as [open(p, 'rb')] gives them. *)
Definition read_bytes (p : path) : M string :=
  f <- gets fs ;;
  match f !! p with
  | Some (File c) => ret c
  | Some Dir => raise ExIsADirectory
  | None => raise ExFileNotFound
  end.

(** [os.remove] *)
Definition os_remove (p : path) : M unit :=
  f <- gets fs ;;
  match f !! p with
  | Some (File _) => modify (set_fs (delete p f))
  | Some Dir => raise ExIsADirectory
  | None => raise ExFileNotFound
  end.

(** What [shutil.rmtree(d, ignore_errors=True)] leaves: a directory goes
    with everything below it; on anything else the error is ignored. *)
Definition purge (d : path) (f : gmap path node) : gmap path node :=
  match f !! d with
  | Some Dir => filter (fun '(p, _) => ¬ (d `prefix_of` p)) f
  | _ => f
  end.

Definition shutil_rmtree (d : path) : M unit := modify (fun w => set_fs (purge d (fs w)) w).

(** [os.chdir] *)
Definition os_chdir (d : path) : M unit :=
  f <- gets fs ;;
  if is_dir f d then modify (set_cwd d)
  else if exists_in f d then raise ExNotADirectory
  else raise ExFileNotFound.

(** The name of [p] when it lies directly in [d]. *)
Definition child_name (d p : path) : option string :=
  if decide (take (length d) p = d)
  then match drop (length d) p with
       | [name] => Some name
       | _ => None
       end
  else None.

(** The entries of a directory with their nodes (the order is the map's:
    [os.listdir] promises none). *)
Definition entries_of (f : gmap path node) (d : path) : list (string * node) :=
  omap (fun '(p, n) => name ← child_name d p; Some (name, n)) (map_to_list f).

Definition os_listdir (d : path) : M (list string) :=
  f <- gets fs ;;
  if is_dir f d then ret (map fst (entries_of f d))
  else if exists_in f d then raise ExNotADirectory
  else raise ExFileNotFound.

Definition files_of (f : gmap path node) (d : path) : list string :=
  omap (fun '(name, n) => match n with File _ => Some name | Dir => None end)
       (entries_of f d).

Definition dirs_of (f : gmap path node) (d : path) : list string :=
  omap (fun '(name, n) => match n with Dir => Some name | File _ => None end)
       (entries_of f d).

(** [os.walk(top)]: one triple [(root, dirs, files)] for [top] and for every
    directory below it. *)
Definition os_walk (f : gmap path node) (top : path)
  : list (path * list string * list string) :=
  if is_dir f top
  then map (fun d => (d, dirs_of f d, files_of f d))
           (top :: omap (fun '(p, n) =>
                           match n with
                           | Dir => if decide (top `prefix_of` p ∧ p ≠ top)
                                    then Some p else None
                           | File _ => None
                           end) (map_to_list f))
  else [].

(** ** The program *)

Section App.

Variable E : Env.

Definition now : M Z := fun w => (Val (clock E (ticks w)), tick w).

Definition new_uuid : M string := fun w => (Val (uuid4 E (uuids w)), draw w).

(** [try: c except <handles>: h] *)
Definition catch {A} (c : M A) (handles : Exn -> bool) (h : M A) : M A :=
  fun w =>
    match c w with
    | (Raise e, w') => if handles e then h w' else (Raise e, w')
    | r => r
    end.

(** *** The registry

    The column [calculation_id] is declared [STRING], which gives it
    SQLite's NUMERIC affinity: an id that reads as a number is stored, and
    compared, as that number.  The table below keeps the id as it was given
    and compares strings, which is what SQLite does with an id it stores as
    text (see [stored_as_text] below); what is proved of one id's lookup
    after another id's insertion is stated for such ids. *)

Definition get_calculation_by_id (id : string) : M (option CalculationRecord) :=
  gets (fun w => List.find (fun r => String.eqb (calculation_id r) id) (db w)).

Definition get_number_of_calculations (st : Z) : M Z :=
  gets (fun w => Z.of_nat (length (List.filter (fun r => Z.eqb (state r) st) (db w)))).

Definition insert_new_calculation (id : string) : M unit :=
  t1 <- now ;;
  t2 <- now ;;
  modify (fun w => set_db (db w ++ [{| calculation_id := id; state := 0;
                                       message := None; created_at := t1;
                                       updated_at := t2 |}]) w).

(** *** Files *)

(** [Path(p).read_text()], and [open(p).read()]: the bytes are decoded and
    the line ends translated. *)
Definition read_text (p : path) : M string :=
  c <- read_bytes p ;;
  match decode E c with
  | Some s => ret (universal_newlines s)
  | None => raise ExUnicodeDecode
  end.

(** [json.loads(filedata.read())] on a file opened in text mode; what is
    raised on a file that does not decode or does not parse is a
    [ValueError]. *)
Definition read_json (file : path) : M json :=
  c <- read_bytes file ;;
  match json_loads_text E c with
  | Some j => ret j
  | None => raise ExValue
  end.

(** [with open(file, 'w') as outfile: json.dump(content, outfile)] *)
Definition write_json (file : path) (content : json) : M unit :=
  write_file file (json_dumps E content).

Definition is_binary (filename : path) : M bool :=
  c <- read_bytes filename ;;
  ret (existsb (str_contains NUL) (readlines c)).

(** *** Validation *)

(** [urlopen], [json.loads] and [jsonschema.validate] of one [try] block. *)
Definition jsonschema_validate (url : string) (instance : json) : M unit :=
  match schema_validate E url instance with
  | Conforms => ret tt
  | ValidationError => raise ExValidation
  | URLError => raise ExURL
  | JSONDecodeError => raise ExJSONDecode
  | SchemaError => raise ExSchema
  end.

Definition is_ExAttribute (e : Exn) : bool :=
  match e with ExAttribute => true | _ => false end.

Definition is_ExValidation (e : Exn) : bool :=
  match e with ExValidation => true | _ => false end.

Definition mf_schema_url : string :=
  SCHEMA_SERVER_URL +:+ "/modflow/packages/mfPackages.json".

Definition mt_schema_url : string :=
  SCHEMA_SERVER_URL +:+ "/modflow/packages/mtPackages.json".

Definition is_valid (content : json) : M bool :=
  parts <- catch (data <- py_get content "data" ;;
                  mf <- py_get data "mf" ;;
                  mt <- py_get data "mt" ;;
                  ret (Some (mf, mt)))
                 is_ExAttribute (ret None) ;;
  match parts with
  | None => ret false
  | Some (mf, mt) =>
      ok <- catch (jsonschema_validate mf_schema_url mf ;;; ret true)
                  is_ExValidation (ret false) ;;
      if negb ok then ret false
      else if truthy mt
      then catch (jsonschema_validate mt_schema_url mt ;;; ret true)
                 is_ExValidation (ret false)
      else ret true
  end.

(** *** Submission *)

Record Request := {
  method : string;
  content_type : option string;
  files : list (string * (string * string));   (* field, (filename, bytes) *)
  body : string
}.

(** [os.path.join(folder, o)] and ['/' + o] want a [str]. *)
Definition as_str (o : json) : M string :=
  match o with
  | JStr s => ret s
  | _ => raise ExType
  end.

Definition target_directory_of (id : string) : path := os_path_join MODFLOW_FOLDER id.

Definition modflow_file_of (id : string) : path :=
  os_path_join (target_directory_of id) "configuration.json".

Definition state_log_of (id : string) : path :=
  os_path_join (target_directory_of id) "state.log".

(** The answer of an inline submission: the job's public identity. *)
Definition identity (id : string) : json :=
  JDict [("status", JNum 200); ("calculation_id", JStr id); ("link", JStr ("/" +:+ id))].

(** The branch ['multipart/form-data' in request.content_type].  The
    temporary file is named relative to the working directory, which no step
    of the branch changes: the name is resolved once. *)
Definition upload_multipart (req : Request) : M Response :=
  match assoc "file" (files req) with
  | None => abort 415 (JStr "No file uploaded")
  | Some (filename, data) =>
      if String.eqb filename "" then abort 415 (JStr "No selected file")
      else
        u <- new_uuid ;;
        folder <- gets (abspath UPLOAD_FOLDER) ;;
        let temp_file := os_path_join folder (u +:+ ".json") in
        write_file temp_file data ;;;
        content <- read_json temp_file ;;
        valid <- is_valid content ;;
        when (negb valid)
          (os_remove temp_file ;;;
           abort 422 (JStr "This JSON file does not match with the MODFLOW JSON Schema")) ;;;
        o <- py_get content "calculation_id" ;;
        id <- as_str o ;;
        ex <- os_path_exists (modflow_file_of id) ;;
        when ex
          (abort 422 (JStr ("Model with calculationId: " +:+ id +:+ " already exits."))) ;;;
        os_makedirs (target_directory_of id) ;;;
        write_json (modflow_file_of id) content ;;;
        insert_new_calculation id ;;;
        ret (RedirectTo ("/" +:+ id))
  end.

(** The branch ['application/json' in request.content_type];
    [get_json(force=True)] answers 400 when the body does not parse. *)
Definition upload_inline (req : Request) : M Response :=
  content <- match json_loads E (body req) with
             | Some j => ret j
             | None => abort 400 (on_json_loading_failed E (body req))
             end ;;
  valid <- is_valid content ;;
  when (negb valid) (abort 422 (JStr "Content is not valid.")) ;;;
  o <- py_get content "calculation_id" ;;
  id <- as_str o ;;
  ex <- os_path_exists (modflow_file_of id) ;;
  when ex
    (has_log <- os_path_exists (state_log_of id) ;;
     when (negb has_log) (shutil_rmtree (target_directory_of id)) ;;;
     st <- read_text (state_log_of id) ;;
     when (negb (String.eqb st "200")) (shutil_rmtree (target_directory_of id))) ;;;
  ex' <- os_path_exists (modflow_file_of id) ;;
  when (negb ex')
    (os_makedirs (target_directory_of id) ;;;
     write_json (modflow_file_of id) content ;;;
     insert_new_calculation id) ;;;
  ret (Body (json_dumps E (identity id))).

(** A view that falls off its end returns [None], which Flask refuses. *)
Definition upload_file (req : Request) : M Response :=
  if String.eqb (method req) "POST" then
    match content_type req with
    | None => raise ExType
    | Some ct =>
        if str_contains "multipart/form-data" ct then upload_multipart req
        else if str_contains "application/json" ct then upload_inline req
        else raise ExType
    end
  else if String.eqb (method req) "GET" then ret (Template "upload.html" [])
  else raise ExType.

(** *** Readers *)

Definition reader (k : ResultKind) (folder : path) : M Reader :=
  gets (fun w => reader_of E k (fs w) folder).

Definition called {A} (c : ReaderCall) (answer : option A) : M A :=
  modify (log c) ;;;
  match answer with
  | Some a => ret a
  | None => raise ExReader
  end.

Definition read_times (k : ResultKind) (folder : path) : M (list float) :=
  r <- reader k folder ;; called (RdTimes k) (Some (times r)).

Definition read_number_of_layers (k : ResultKind) (folder : path) : M Z :=
  r <- reader k folder ;; called (RdLayers k) (Some (number_of_layers r)).

Definition read_number_of_substances (folder : path) : M Z :=
  r <- reader KConcentration folder ;;
  called RdSubstances (Some (number_of_substances r)).

Definition read_layer (k : ResultKind) (folder : path) (totim : float) (layer : Z)
  : M json :=
  r <- reader k folder ;; called (RdLayer k totim layer) (layer_array r totim layer).

Definition read_ts (k : ResultKind) (folder : path) (layer row col : Z) : M json :=
  r <- reader k folder ;; called (RdTs k layer row col) (time_series r layer row col).

Definition read_budget_by_totim (folder : path) (totim : float) (incremental : bool)
  : M json :=
  r <- reader KBudget folder ;;
  called (RdBudgetTotim totim incremental) (budget_by_totim r totim incremental).

Definition read_budget_by_idx (folder : path) (idx : Z) (incremental : bool) : M json :=
  r <- reader KBudget folder ;;
  called (RdBudgetIdx idx incremental) (budget_by_idx r idx incremental).

Definition read_concentration (folder : path) (substance : Z) (totim : float) (layer : Z)
  : M json :=
  r <- reader KConcentration folder ;;
  called (RdConcentration substance totim layer) (concentration_array r substance totim layer).

(** *** Selectors and messages *)

Definition to_int (s : string) : M Z :=
  match py_int E s with Some n => ret n | None => raise ExValue end.

Definition to_float (s : string) : M float :=
  match py_float E s with Some x => ret x | None => raise ExValue end.

(** [totim in times]: [==] on floats, element by element ([float(totim)] is a
    new object, so the identity test of [in] finds nothing more). *)
Definition float_in (x : float) (l : list float) : bool := existsb (PrimFloat.eqb x) l.

(** [s in l] for strings *)
Definition str_in (s : string) (l : list string) : bool := existsb (String.eqb s) l.

Definition permitted_types : list string := ["head"; "drawdown"].

Definition calculation_not_found (id : string) : json :=
  JStr ("Calculation with id: " +:+ id +:+ " not found.").

Definition type_not_permitted (t : string) : json :=
  JStr ("Type: " +:+ t +:+ " not in the list of permitted types.               Permitted types are: "
        +:+ String.concat ", " permitted_types +:+ ".").

Definition totim_not_available (totim : float) (l : list float) : json :=
  JStr ("Totim: " +:+ str_float E totim +:+ " not available. Available totims are: "
        +:+ String.concat ", " (map (str_float E) l)).

Definition layer_too_large (nlay : Z) : json :=
  JStr ("Layer must be less then the overall number of layers (" +:+ pretty nlay +:+ ").").

Definition substance_not_available (substance nsub : Z) : json :=
  JStr ("Substance: " +:+ pretty substance +:+ " not available. Number of substances: "
        +:+ pretty nsub +:+ ".").

Definition totim_key_not_available (idx : Z) (n : nat) : json :=
  JStr ("TotimKey: " +:+ pretty idx +:+ " not available. Available keys are in between: "
        +:+ pretty 0 +:+ " and " +:+ pretty (Z.of_nat n - 1)).

(** The guard every query on a job starts with. *)
Definition require_configuration (id : string) : M unit :=
  ex <- os_path_exists (modflow_file_of id) ;;
  when (negb ex) (abort 404 (calculation_not_found id)).

(** *** Metadata *)

Fixpoint path_str (p : path) : string :=
  match p with
  | [] => ""
  | c :: p' => "/" +:+ c +:+ path_str p'
  end.

(** [range(0, n)] wants an integer ([bool] is one). *)
Definition range_length (o : json) : M nat :=
  match o with
  | JNum n => ret (Z.to_nat n)
  | JBool b => ret (if b then 1%nat else 0%nat)
  | _ => raise ExType
  end.

Definition get_calculation_details_json (id : string) (data : json) (folder : path)
  : M Response :=
  calculation <- get_calculation_by_id id ;;
  let mfLogfile := os_path_join folder "modflow.log" in
  has_log <- os_path_isfile mfLogfile ;;
  (* neither [None] nor a [sqlite3.Row] supports item assignment *)
  when has_log (_ <- read_text mfLogfile ;; raise ExType) ;;;
  budget_times <- read_times KBudget folder ;;
  concentration_times <- read_times KConcentration folder ;;
  drawdown_times <- read_times KDrawdown folder ;;
  head_times <- read_times KHead folder ;;
  let total_times := map JFloat head_times in
  dis <- py_item data "dis" ;;
  start_date_time <- py_item dis "start_datetime" ;;
  dis <- py_item data "dis" ;;
  time_unit <- py_item dis "itmuni" ;;
  let times := JDict [("start_date_time", start_date_time); ("time_unit", time_unit);
                      ("total_times", JList total_times)] in
  dis <- py_item data "dis" ;;
  number_of_layers <- py_item dis "nlay" ;;
  let lv := ["head"]
            ++ (if bool_decide (0 < length budget_times)%nat then ["budget"] else [])
            ++ (if bool_decide (0 < length concentration_times)%nat then ["concentration"] else [])
            ++ (if bool_decide (0 < length drawdown_times)%nat then ["drawdown"] else []) in
  n <- range_length number_of_layers ;;
  let layer_values := replicate n (JList (map JStr lv)) in
  st <- match calculation with
        | Some c => ret (JNum (state c))
        | None => raise ExType
        end ;;
  msg <- match calculation with
         | Some c => ret (from_option JStr JNull (message c))
         | None => raise ExType
         end ;;
  names <- os_listdir (target_directory_of id) ;;
  ret (Body (json_dumps E
    (JDict [("calculation_id", JStr id); ("state", st); ("message", msg);
            ("files", JList (map JStr names)); ("times", times);
            ("layer_values", JList layer_values)]))).

Definition calculation_details (req : Request) (id : string) : M Response :=
  require_configuration id ;;;
  cfg <- read_json (modflow_file_of id) ;;
  d <- py_get cfg "data" ;;
  data <- py_get d "mf" ;;
  let folder := target_directory_of id in
  match content_type req with
  | Some ct =>
      if negb (String.eqb ct "") && str_contains "application/json" ct
      then get_calculation_details_json id data folder
      else ret (Template "details.html"
                  [("id", JStr id); ("data", data); ("path", JStr (path_str folder))])
  | None =>
      ret (Template "details.html"
             [("id", JStr id); ("data", data); ("path", JStr (path_str folder))])
  end.

(** *** Files and archive *)

Definition binary_notice : string :=
  "This file is a binary file and cannot be shown as text".

Definition get_file (id file_name : string) : M Response :=
  let target_file := os_path_join (target_directory_of id) file_name in
  ex <- os_path_exists target_file ;;
  when (negb ex)
    (abort 404 (JDict [("message", JStr ("File with name " +:+ file_name +:+ " not found."))])) ;;;
  bin <- is_binary target_file ;;
  if bin
  then ret (Body (json_dumps E (JDict [("name", JStr file_name);
                                       ("content", JStr binary_notice)])))
  else
    file_content <- read_text target_file ;;
    ret (Body (json_dumps E (JDict [("name", JStr file_name);
                                    ("content", JStr file_content)]))).

(** [z.write(filename)]: the name is resolved against the working
    directory; a directory gives an entry of its own, without content. *)
Definition zip_write (z : list (string * string)) (filename : string)
  : M (list (string * string)) :=
  w <- gets (fun w => w) ;;
  match fs w !! os_path_join (cwd w) filename with
  | Some (File c) => ret (z ++ [(filename, c)])
  | Some Dir => ret (z ++ [(filename +:+ "/", "")])
  | None => raise ExFileNotFound
  end.

Fixpoint foldM {A B} (f : B -> A -> M B) (l : list A) (b : B) : M B :=
  match l with
  | [] => ret b
  | a :: l' => b' <- f b a ;; foldM f l' b'
  end.

Definition get_download_model (id : string) : M Response :=
  os_chdir (target_directory_of id) ;;;
  w <- gets (fun w => w) ;;
  z <- foldM (fun z '(root, dirs, names) =>
                foldM (fun z filename =>
                         if negb (str_endswith ".json" filename)
                         then zip_write z filename
                         else ret z)
                      names z)
             (os_walk (fs w) (cwd w)) [] ;;
  ret (Attachment "application/zip" z ("model-calculation-" +:+ id +:+ ".zip")).

(** *** Result queries *)

(** The body of [if t == 'head':] and of [if t == 'drawdown':], which
    differ in the reader only. *)
Definition layer_slice (k : ResultKind) (folder : path) (totim : float) (layer : Z)
  : M Response :=
  l <- read_times k folder ;;
  when (negb (float_in totim l)) (abort 404 (totim_not_available totim l)) ;;;
  nlay <- read_number_of_layers k folder ;;
  when (layer >=? nlay) (abort 404 (layer_too_large nlay)) ;;;
  a <- read_layer k folder totim layer ;;
  ret (Body (json_dumps E a)).

Definition get_results_head_drawdown (id t layer totim : string) : M Response :=
  let target_folder := target_directory_of id in
  require_configuration id ;;;
  totim <- to_float totim ;;
  layer <- to_int layer ;;
  when (negb (str_in t permitted_types)) (abort 404 (type_not_permitted t)) ;;;
  if String.eqb t "head" then layer_slice KHead target_folder totim layer
  else if String.eqb t "drawdown" then layer_slice KDrawdown target_folder totim layer
  else raise ExType.

Definition get_results_time_series (id t layer row column : string) : M Response :=
  let target_folder := target_directory_of id in
  require_configuration id ;;;
  layer <- to_int layer ;;
  row <- to_int row ;;
  col <- to_int column ;;
  when (negb (str_in t permitted_types)) (abort 404 (type_not_permitted t)) ;;;
  if String.eqb t "head" then
    a <- read_ts KHead target_folder layer row col ;; ret (Body (json_dumps E a))
  else if String.eqb t "drawdown" then
    a <- read_ts KDrawdown target_folder layer row col ;; ret (Body (json_dumps E a))
  else raise ExType.

Definition get_results_budget_by_totim (id totim : string) : M Response :=
  let target_folder := target_directory_of id in
  require_configuration id ;;;
  totim <- to_float totim ;;
  l <- read_times KBudget target_folder ;;
  when (negb (float_in totim l)) (abort 404 (totim_not_available totim l)) ;;;
  cumulative <- read_budget_by_totim target_folder totim false ;;
  incremental <- read_budget_by_totim target_folder totim true ;;
  ret (Body (json_dumps E (JDict [("cumulative", cumulative);
                                  ("incremental", incremental)]))).

Definition get_results_budget_by_idx (id idx : string) : M Response :=
  let target_folder := target_directory_of id in
  require_configuration id ;;;
  idx <- to_int idx ;;
  l <- read_times KBudget target_folder ;;
  when (idx >=? Z.of_nat (length l)) (abort 404 (totim_key_not_available idx (length l))) ;;;
  cumulative <- read_budget_by_idx target_folder idx false ;;
  incremental <- read_budget_by_idx target_folder idx true ;;
  ret (Body (json_dumps E (JDict [("cumulative", cumulative);
                                  ("incremental", incremental)]))).

Definition get_results_concentration (id substance layer totim : string) : M Response :=
  let target_folder := target_directory_of id in
  require_configuration id ;;;
  layer <- to_int layer ;;
  substance <- to_int substance ;;
  totim <- to_float totim ;;
  nsub <- read_number_of_substances target_folder ;;
  when (substance >=? nsub) (abort 404 (substance_not_available substance nsub)) ;;;
  l <- read_times KConcentration target_folder ;;
  when (negb (float_in totim l)) (abort 404 (totim_not_available totim l)) ;;;
  nlay <- read_number_of_layers KConcentration target_folder ;;
  when (layer >=? nlay) (abort 404 (layer_too_large nlay)) ;;;
  a <- read_concentration target_folder substance totim layer ;;
  ret (Body (json_dumps E a)).

Definition observations_not_found (id : string) : json :=
  JStr ("Head observations from calculation with id: " +:+ id +:+ " not found.").

(** The bare [except:] turns every failure of the conversion into a 500. *)
Definition get_results_observations (id : string) : M Response :=
  let hob_out_file := os_path_join (target_directory_of id) "mf.hob.out" in
  ex <- os_path_exists hob_out_file ;;
  when (negb ex) (abort 404 (observations_not_found id)) ;;;
  f <- gets fs ;;
  match f !! hob_out_file with
  | Some (File c) =>
      match read_csv E c with
      | Some records => ret (Body records)
      | None => abort 500 (JStr "Error converting head observation output file.")
      end
  | _ => abort 500 (JStr "Error converting head observation output file.")
  end.

(** *** Helpers and operational views *)

(** [except ValueError] covers the decoding and the parsing alike; a file
    that cannot be opened still raises. *)
Definition valid_json_file (file : path) : M bool :=
  c <- read_bytes file ;;
  ret (match json_loads_text E c with Some _ => true | None => false end).

(** The gauges as [metrics] sets them, in the order of the source. *)
Definition metrics_gauges : M (list (string * Z)) :=
  n_0 <- get_number_of_calculations 0 ;;
  n_100 <- get_number_of_calculations 100 ;;
  n_200 <- get_number_of_calculations 200 ;;
  n_400 <- get_number_of_calculations 400 ;;
  ret [("number_of_calculated_models_0", n_0);
       ("number_of_calculated_models_100", n_100);
       ("number_of_calculated_models_200", n_200);
       ("number_of_calculated_models_400", n_400)].

(** [generate_latest] renders the registry of the gauges. *)
Definition metrics (generate_latest : list (string * Z) -> string) : M Response :=
  gauges <- metrics_gauges ;;
  ret (Body (generate_latest gauges)).

End App.

(** ** The vocabulary of the properties *)

Section Vocabulary.

Variable E : Env.

(** What [is_valid] answers, read off the schema outcomes. *)
Definition schema_verdict (o : SchemaOutcome) (k : Outcome bool) : Outcome bool :=
  match o with
  | Conforms => k
  | ValidationError => Val false
  | URLError => Raise ExURL
  | JSONDecodeError => Raise ExJSONDecode
  | SchemaError => Raise ExSchema
  end.

Definition validity (content : json) : Outcome bool :=
  match content with
  | JDict d =>
      match default JNull (assoc "data" d) with
      | JDict d' =>
          let mf := default JNull (assoc "mf" d') in
          let mt := default JNull (assoc "mt" d') in
          schema_verdict (schema_validate E mf_schema_url mf)
            (if truthy mt
             then schema_verdict (schema_validate E mt_schema_url mt) (Val true)
             else Val true)
      | _ => Val false
      end
  | _ => Val false
  end.

(** The document of an accepted submission names its id. *)
Definition names_id (content : json) (id : string) : Prop :=
  exists d, content = JDict d /\ assoc "calculation_id" d = Some (JStr id).

(** What a first submission of [content] under [id] leaves of [w]. *)
Definition submitted (id : string) (content : json) (w : World) : World :=
  {| fs := <[modflow_file_of id := File (json_dumps E content)]>
             (<[MODFLOW_FOLDER := Dir]> (<[target_directory_of id := Dir]> (fs w)));
     db := db w ++ [{| calculation_id := id; state := 0; message := None;
                       created_at := clock E (ticks w);
                       updated_at := clock E (S (ticks w)) |}];
     cwd := cwd w; ticks := S (S (ticks w)); uuids := uuids w; trace := trace w |}.

(** No file stands where the folder of the jobs should be. *)
Definition folder_free (f : gmap path node) : Prop :=
  f !! MODFLOW_FOLDER = None \/ f !! MODFLOW_FOLDER = Some Dir.

(** Where the upload is saved: in the upload folder of the working
    directory, under the next uuid. *)
Definition temp_file_of (w : World) : path :=
  os_path_join (abspath UPLOAD_FOLDER w) (uuid4 E (uuids w) +:+ ".json").

(** The world once the upload is saved. *)
Definition saved (payload : string) (w : World) : World :=
  set_fs (<[temp_file_of w := File payload]> (fs w)) (draw w).

(** A computation avoids a description when it never aborts with it. *)
Definition avoids {A} (d : json) (c : M A) : Prop :=
  forall w code, fst (c w) <> Abort code d.

Definition kind_of_type (t : string) : option ResultKind :=
  if String.eqb t "head" then Some KHead
  else if String.eqb t "drawdown" then Some KDrawdown
  else None.

Definition answer (o : option json) : Outcome Response :=
  match o with
  | Some a => Val (Body (json_dumps E a))
  | None => Raise ExReader
  end.

Definition budget_answer (cumulative incremental : option json) : Outcome Response :=
  match cumulative, incremental with
  | Some c, Some i =>
      Val (Body (json_dumps E (JDict [("cumulative", c); ("incremental", i)])))
  | _, _ => Raise ExReader
  end.

(** The metadata query and the result queries on head, drawdown, budget
    and concentration files. *)
Inductive Query :=
  | QDetails (req : Request)
  | QSlice (t layer totim : string)
  | QSeries (t layer row column : string)
  | QBudgetTotim (totim : string)
  | QBudgetIdx (idx : string)
  | QConcentration (substance layer totim : string).

Definition run_query (q : Query) (id : string) : M Response :=
  match q with
  | QDetails req => calculation_details E req id
  | QSlice t layer totim => get_results_head_drawdown E id t layer totim
  | QSeries t layer row column => get_results_time_series E id t layer row column
  | QBudgetTotim totim => get_results_budget_by_totim E id totim
  | QBudgetIdx idx => get_results_budget_by_idx E id idx
  | QConcentration substance layer totim =>
      get_results_concentration E id substance layer totim
  end.


Definition zero_byte : ascii := "000"%char.

(** The file holds a zero byte somewhere. *)
Definition has_zero_byte (c : string) : Prop := In zero_byte (list_ascii_of_string c).

Definition file_answer (name content : string) : Response :=
  Body (json_dumps E (JDict [("name", JStr name); ("content", JStr content)])).

(** The two sub-documents that are validated, when the document has the
    shape for it. *)
Definition sub_documents (content : json) : option (json * json) :=
  match content with
  | JDict d =>
      match default JNull (assoc "data" d) with
      | JDict d' => Some (default JNull (assoc "mf" d'), default JNull (assoc "mt" d'))
      | _ => None
      end
  | _ => None
  end.

End Vocabulary.

(** ** More vocabulary: what a computation leaves of the world *)

(** A computation preserves a relation when every run relates the world
    before to the world after, however the run ends. *)
Definition preserves {A} (R : World -> World -> Prop) (c : M A) : Prop :=
  forall w, R w (snd (c w)).

(** Nothing changes but the record of the reader calls, which grows. *)
Definition only_reads (w w' : World) : Prop :=
  fs w' = fs w /\ db w' = db w /\ cwd w' = cwd w /\ ticks w' = ticks w
  /\ uuids w' = uuids w /\ exists calls, trace w' = trace w ++ calls.

(** A record as the gateway inserts it. *)
Definition is_queued (r : CalculationRecord) : Prop := state r = 0 /\ message r = None.

(** The registry keeps what it has and gains Queued records only. *)
Definition registry_grows (w w' : World) : Prop :=
  exists new, db w' = db w ++ new /\ Forall is_queued new.

(** The files and the registry stay as they are. *)
Definition same_store (w w' : World) : Prop := fs w' = fs w /\ db w' = db w.

(** The world stays as it is. *)
Definition unchanged (w w' : World) : Prop := w' = w.

(** What goes into the archive from one entry of the job directory. *)
Definition archived (entry : string * node) : option (string * string) :=
  match snd entry with
  | File c => if str_endswith ".json" (fst entry) then None else Some (fst entry, c)
  | Dir => None
  end.


(** A name that [os.path.join] puts one level under a folder: not empty,
    not [.] or [..], and free of [/] and of the zero byte. *)
Definition plain_component (name : string) : Prop :=
  name <> "" /\ name <> "." /\ name <> ".."
  /\ str_contains "/" name = false /\ str_contains NUL name = false.

(** The characters of which an integer or real literal is made, and the
    white space SQLite allows around one. *)
Definition numeric_char (c : ascii) : bool :=
  let n := nat_of_ascii c in
  ((48 <=? n) && (n <=? 57))%nat
  || existsb (Ascii.eqb c)
       ["+"; "-"; "."; "e"; "E"; " "; "009"; "010"; "011"; "012"; "013"]%char.

(** An id that the column [calculation_id] keeps as text: some character of
    it belongs to no number. *)
Definition stored_as_text (id : string) : Prop :=
  existsb (fun c => negb (numeric_char c)) (list_ascii_of_string id) = true.
(** ** A sample environment and sample worlds *)

(** A printer for JSON values, enough to tell documents apart. *)
Fixpoint sample_dumps (j : json) : string :=
  match j with
  | JNull => "null"
  | JBool b => if b then "true" else "false"
  | JNum n => pretty n
  | JFloat _ => "<float>"
  | JStr s => "'" +:+ s +:+ "'"
  | JList l => "[" +:+ String.concat ", " (map sample_dumps l) +:+ "]"
  | JDict d =>
      "{" +:+ String.concat ", "
                (map (fun kv => "'" +:+ fst kv +:+ "': " +:+ sample_dumps (snd kv)) d)
          +:+ "}"
  end.

(** A document with a flow model and no transport model. *)
Definition sample_document (id : string) : json :=
  JDict [("calculation_id", JStr id);
         ("data", JDict [("mf", JDict [("dis", JDict [("nlay", JNum 3)])])])].

(** The parser knows the printed sample documents of two ids. *)
Definition sample_loads (s : string) : option json :=
  assoc s [(sample_dumps (sample_document "sim-001"), sample_document "sim-001");
           (sample_dumps (sample_document "sim-002"), sample_document "sim-002")].

Definition sample_payload : string := sample_dumps (sample_document "sim-001").

Definition sample_int (s : string) : option Z :=
  assoc s [("0", 0); ("1", 1); ("2", 2); ("3", 3); ("7", 7); ("-1", -1); ("-2", -2)].

Definition sample_float (s : string) : option float :=
  assoc s [("1.0", 1%float); ("2.0", 2%float); ("2.5", 2.5%float); ("9.0", 9%float)].

Definition sample_str_float (x : float) : string :=
  if PrimFloat.eqb x 1%float then "1.0"
  else if PrimFloat.eqb x 2%float then "2.0"
  else if PrimFloat.eqb x 2.5%float then "2.5"
  else if PrimFloat.eqb x 9%float then "9.0"
  else "nan".

(** A reader over three layers, one substance and the times 1.0 and 2.0. *)
Definition sample_reader : Reader :=
  {| times := [1%float; 2%float];
     number_of_layers := 3;
     number_of_substances := 1;
     layer_array := fun _ layer => Some (JList [JNum layer]);
     time_series := fun layer row col => Some (JList [JNum layer; JNum row; JNum col]);
     budget_by_totim := fun _ incremental => Some (JBool incremental);
     budget_by_idx := fun idx _ => Some (JNum idx);
     concentration_array := fun substance _ layer => Some (JList [JNum substance; JNum layer]) |}.

Definition sample_env : Env :=
  {| json_loads := sample_loads;
     on_json_loading_failed := fun _ => JStr "Bad Request";
     json_loads_text := sample_loads;
     json_dumps := sample_dumps;
     decode := Some;
     schema_validate := fun _ _ => Conforms;
     clock := Z.of_nat;
     uuid4 := fun n => "uuid-" +:+ pretty n;
     reader_of := fun _ _ _ => sample_reader;
     py_int := sample_int;
     py_float := sample_float;
     str_float := sample_str_float;
     read_csv := Some |}.

(** The same environment with the schema server out of reach. *)
Definition unreachable_env : Env :=
  {| json_loads := sample_loads;
     on_json_loading_failed := fun _ => JStr "Bad Request";
     json_loads_text := sample_loads;
     json_dumps := sample_dumps;
     decode := Some;
     schema_validate := fun _ _ => URLError;
     clock := Z.of_nat;
     uuid4 := fun n => "uuid-" +:+ pretty n;
     reader_of := fun _ _ _ => sample_reader;
     py_int := sample_int;
     py_float := sample_float;
     str_float := sample_str_float;
     read_csv := Some |}.

Definition world_of (f : gmap path node) (d : list CalculationRecord) : World :=
  {| fs := f; db := d; cwd := []; ticks := 0; uuids := 0; trace := [] |}.

Definition queued (id : string) (t : Z) : CalculationRecord :=
  {| calculation_id := id; state := 0; message := None; created_at := t;
     updated_at := t + 1 |}.

(** Only the two folders of the service exist. *)
Definition empty_fs : gmap path node :=
  <[MODFLOW_FOLDER := Dir]> (<[UPLOAD_FOLDER := Dir]> ∅).

(** The job sim-001 as a submission leaves it. *)
Definition queued_fs : gmap path node :=
  <[modflow_file_of "sim-001" := File sample_payload]>
    (<[target_directory_of "sim-001" := Dir]> empty_fs).

(** The job sim-001 after a successful run. *)
Definition finished_fs : gmap path node :=
  <[state_log_of "sim-001" := File "200"]> queued_fs.

(** The job sim-001 after a failed run. *)
Definition failed_fs : gmap path node :=
  <[state_log_of "sim-001" := File "400"]> queued_fs.

Definition inline_request (payload : string) : Request :=
  {| method := "POST"; content_type := Some "application/json"; files := [];
     body := payload |}.

Definition multipart_request (filename payload : string) : Request :=
  {| method := "POST"; content_type := Some "multipart/form-data; boundary=x";
     files := [("file", (filename, payload))]; body := "" |}.

Definition get_request (ct : option string) : Request :=
  {| method := "GET"; content_type := ct; files := []; body := "" |}.

(** The registry with the one record of sim-001, and the worlds over it. *)
Definition one_record : list CalculationRecord := [queued "sim-001" 0].

Definition queued_world : World := world_of queued_fs one_record.
Definition finished_world : World := world_of finished_fs one_record.
Definition failed_world : World := world_of failed_fs one_record.

(** A job directory with a listing and a file in a subdirectory. *)
Definition nested_fs : gmap path node :=
  <[os_path_join (os_path_join (target_directory_of "sim-001") "sub") "out.txt"
      := File "deep"]>
    (<[os_path_join (target_directory_of "sim-001") "sub" := Dir]>
       (<[os_path_join (target_directory_of "sim-001") "mf.list" := File "listing"]>
          queued_fs)).

(** The same with a file of that name in the job directory itself. *)
Definition shadowed_fs : gmap path node :=
  <[os_path_join (target_directory_of "sim-001") "out.txt" := File "top"]> nested_fs.


(** A job directory with a text file and a file holding a zero byte. *)
Definition mixed_fs : gmap path node :=
  <[os_path_join (target_directory_of "sim-001") "mf.hds"
      := File (String "a" (String "010" (String "000" (String "b" EmptyString))))]>
    (<[os_path_join (target_directory_of "sim-001") "mf.list" := File "listing"]>
       queued_fs).

(** The sample environment with another parser and another [float]. *)
Definition with_parsers (loads : string -> option json) (to_float : string -> option float)
  : Env :=
  {| json_loads := loads;
     on_json_loading_failed := fun _ => JStr "Bad Request";
     json_loads_text := loads;
     json_dumps := sample_dumps;
     decode := Some;
     schema_validate := fun _ _ => Conforms;
     clock := Z.of_nat;
     uuid4 := fun n => "uuid-" +:+ pretty n;
     reader_of := fun _ _ _ => sample_reader;
     py_int := sample_int;
     py_float := to_float;
     str_float := sample_str_float;
     read_csv := Some |}.

(** A document with a flow model and no id. *)
Definition anonymous_document : json := JDict [("data", JDict [("mf", JDict [])])].

Definition anonymous_env : Env := with_parsers (fun _ => Some anonymous_document) sample_float.

(** A document whose flow model has a discretisation of two layers. *)
Definition full_document : json :=
  JDict [("calculation_id", JStr "sim-001");
         ("data",
          JDict [("mf",
                  JDict [("dis",
                          JDict [("nlay", JNum 2); ("itmuni", JNum 4);
                                 ("start_datetime", JStr "2020-01-01")])])])].

Definition full_env : Env := with_parsers (fun _ => Some full_document) sample_float.

(** Every time parses to NaN. *)
Definition nan_env : Env := with_parsers sample_loads (fun _ => Some nan).

(** The job sim-001 while it runs: the log is there, the marker is not. *)
Definition logged_fs : gmap path node :=
  <[os_path_join (target_directory_of "sim-001") "modflow.log" := File "running"]> queued_fs.

(** The record of sim-001 once its run has failed. *)
Definition failed_record : CalculationRecord :=
  {| calculation_id := "sim-001"; state := 400; message := Some "no convergence";
     created_at := 0; updated_at := 5 |}.


(** A decoder that takes seven-bit text and refuses any other byte. *)
Definition seven_bit (c : string) : option string :=
  if forallb (fun a => (nat_of_ascii a <? 128)%nat) (list_ascii_of_string c)
  then Some c else None.

Definition strict_env : Env :=
  {| json_loads := sample_loads;
     on_json_loading_failed := fun _ => JStr "Bad Request";
     json_loads_text := sample_loads;
     json_dumps := sample_dumps;
     decode := seven_bit;
     schema_validate := fun _ _ => Conforms;
     clock := Z.of_nat;
     uuid4 := fun n => "uuid-" +:+ pretty n;
     reader_of := fun _ _ _ => sample_reader;
     py_int := sample_int;
     py_float := sample_float;
     str_float := sample_str_float;
     read_csv := Some |}.

(** Two lines that end as a DOS editor ends them. *)
Definition dos_text : string :=
  String "a" (String "013" (String "010" (String "b" (String "013" (String "010" ""))))).

(** The same two lines as a text-mode read returns them. *)
Definition unix_text : string :=
  String "a" (String "010" (String "b" (String "010" ""))).

(** One byte that is no seven-bit character, and no zero byte. *)
Definition high_byte : string := String "255" "".

(** The job sim-001 with a listing written under DOS and a file of one
    high byte. *)
Definition listed_fs : gmap path node :=
  <[os_path_join (target_directory_of "sim-001") "mf.list" := File dos_text]>
    (<[os_path_join (target_directory_of "sim-001") "mf.bin" := File high_byte]>
       queued_fs).

(** The service after a download of sim-001: the working directory is the
    folder of the job, where no upload folder is. *)
Definition moved_world : World :=
  {| fs := queued_fs; db := one_record; cwd := target_directory_of "sim-001";
     ticks := 2; uuids := 0; trace := [] |}.
(** ** Properties *)

Section Properties.

Variable E : Env.

(** *** Running the monad *)

Arguments target_directory_of : simpl never.
Arguments modflow_file_of : simpl never.
Arguments state_log_of : simpl never.
Arguments os_path_join : simpl never.

Lemma bind_Val {A B} (c : M A) (k : A -> M B) w a w' :
  c w = (Val a, w') -> bind c k w = k a w'.
Proof. intros H. unfold bind. now rewrite H. Qed.

Lemma bind_Abort {A B} (c : M A) (k : A -> M B) w code d w' :
  c w = (Abort code d, w') -> bind c k w = (Abort code d, w').
Proof. intros H. unfold bind. now rewrite H. Qed.

Lemma bind_Raise {A B} (c : M A) (k : A -> M B) w e w' :
  c w = (Raise e, w') -> bind c k w = (Raise e, w').
Proof. intros H. unfold bind. now rewrite H. Qed.

Lemma world_eta (w : World) : set_fs (fs w) w = w.
Proof. now destruct w. Qed.

(** *** Validation is a function of the document and the schema server *)

Lemma is_valid_validity content w : is_valid E content w = (validity E content, w).
Proof.
  unfold is_valid, validity, catch, bind, py_get, ret, raise.
  destruct content as [| | | | | |d]; simpl; try reflexivity.
  destruct (default JNull (assoc "data" d)) as [| | | | | |d']; simpl; try reflexivity.
  unfold jsonschema_validate.
  destruct (schema_validate E mf_schema_url _); simpl; try reflexivity.
  destruct (truthy _); simpl; try reflexivity.
  destruct (schema_validate E mt_schema_url _); reflexivity.
Qed.

Lemma is_valid_run content w b :
  validity E content = Val b -> is_valid E content w = (Val b, w).
Proof. intros H. now rewrite is_valid_validity, H. Qed.

(** *** The filesystem after a purge *)

Lemma purge_lookup_None (d : path) (f : gmap path node) (p : path) : f !! p = None -> purge d f !! p = None.
Proof.
  intros H. unfold purge. destruct (_ !! d) as [[|]|]; try exact H.
  apply map_lookup_filter_None. left. exact H.
Qed.

Lemma purge_below (d : path) (f : gmap path node) (p : path) : f !! d = Some Dir -> d `prefix_of` p -> purge d f !! p = None.
Proof.
  intros Hd Hp. unfold purge. rewrite Hd.
  apply map_lookup_filter_None. right. intros n _ Hn. now apply Hn.
Qed.

Lemma purge_outside (d : path) (f : gmap path node) (p : path) : ¬ d `prefix_of` p -> purge d f !! p = f !! p.
Proof.
  intros Hp. unfold purge. destruct (_ !! d) as [[|]|]; try reflexivity.
  destruct (f !! p) as [n|] eqn:Hl.
  - apply map_lookup_filter_Some. split; [exact Hl | exact Hp].
  - apply map_lookup_filter_None. now left.
Qed.

Lemma prefix_join d name : d `prefix_of` os_path_join d name.
Proof. now exists [name]. Qed.

(** *** Inline submission, case by case *)

Lemma upload_file_inline payload w :
  upload_file E (inline_request payload) w = upload_inline E (inline_request payload) w.
Proof. reflexivity. Qed.

Lemma exists_in_true (f : gmap path node) (p : path) n : f !! p = Some n -> exists_in f p = true.
Proof. intros H. unfold exists_in. now rewrite H. Qed.

Lemma exists_in_false (f : gmap path node) (p : path) : f !! p = None -> exists_in f p = false.
Proof. intros H. unfold exists_in. now rewrite H. Qed.

Ltac present H :=
  let X := fresh in pose proof (exists_in_true _ _ _ H) as X; rewrite ?X; clear X.

Ltac absent H :=
  let X := fresh in pose proof (exists_in_false _ _ H) as X; rewrite ?X; clear X.

(** A finished job: nothing is touched, the identity is the answer. *)
Lemma inline_finished payload content id w n c :
  json_loads E payload = Some content ->
  validity E content = Val true ->
  names_id content id ->
  fs w !! modflow_file_of id = Some n ->
  fs w !! state_log_of id = Some (File c) ->
  decode E c = Some "200" ->
  upload_inline E (inline_request payload) w = (Val (Body (json_dumps E (identity id))), w).
Proof.
  intros Hl Hv (d & -> & Hid) Hcfg Hlog Hdec.
  unfold upload_inline. cbn [body inline_request]. rewrite Hl.
  rewrite (bind_Val _ _ w (JDict d) w) by reflexivity.
  rewrite (bind_Val _ _ w true w) by now apply is_valid_run.
  cbn [negb when]. rewrite (bind_Val _ _ w tt w) by reflexivity.
  unfold py_get. rewrite Hid. cbn [default from_option].
  rewrite (bind_Val _ _ w (JStr id) w) by reflexivity.
  rewrite (bind_Val _ _ w id w) by reflexivity.
  unfold os_path_exists, read_text, read_bytes, gets, bind, when, ret.
  present Hcfg. present Hlog.
  cbn [negb]. rewrite Hlog, Hdec. cbn. present Hcfg.
  reflexivity.
Qed.

(** An abandoned job: the directory is purged, and reading the marker that
    was never there raises before anything is created again. *)
Lemma inline_abandoned payload content id w n :
  json_loads E payload = Some content ->
  validity E content = Val true ->
  names_id content id ->
  fs w !! modflow_file_of id = Some n ->
  fs w !! state_log_of id = None ->
  upload_inline E (inline_request payload) w
  = (Raise ExFileNotFound, set_fs (purge (target_directory_of id) (fs w)) w).
Proof.
  intros Hl Hv (d & -> & Hid) Hcfg Hlog.
  unfold upload_inline. cbn [body inline_request]. rewrite Hl.
  rewrite (bind_Val _ _ w (JDict d) w) by reflexivity.
  rewrite (bind_Val _ _ w true w) by now apply is_valid_run.
  cbn [negb when]. rewrite (bind_Val _ _ w tt w) by reflexivity.
  unfold py_get. rewrite Hid. cbn [default from_option].
  rewrite (bind_Val _ _ w (JStr id) w) by reflexivity.
  rewrite (bind_Val _ _ w id w) by reflexivity.
  unfold os_path_exists, shutil_rmtree, read_text, read_bytes, gets, modify, bind, when, ret, raise.
  present Hcfg. absent Hlog.
  cbn. rewrite (purge_lookup_None _ _ _ Hlog). reflexivity.
Qed.

Ltac paths_ne :=
  unfold modflow_file_of, state_log_of, target_directory_of, os_path_join,
         MODFLOW_FOLDER, UPLOAD_FOLDER;
  cbn; congruence.

Lemma makedirs_target id w :
  fs w !! target_directory_of id = None ->
  folder_free (fs w) ->
  os_makedirs (target_directory_of id) w
  = (Val tt, set_fs (<[MODFLOW_FOLDER := Dir]> (<[target_directory_of id := Dir]> (fs w))) w).
Proof.
  intros Hdir Hm. unfold os_makedirs, bind, gets. absent Hdir.
  replace (inits (target_directory_of id))
    with [MODFLOW_FOLDER; target_directory_of id] by reflexivity.
  cbn [existsb]. rewrite Hdir.
  assert (match fs w !! MODFLOW_FOLDER with Some (File _) => true | _ => false end = false)
    as -> by (destruct Hm as [-> | ->]; reflexivity).
  reflexivity.
Qed.

Lemma write_file_in (p : path) data w :
  fs w !! p = None ->
  parent p <> [] ->
  fs w !! parent p = Some Dir ->
  write_file p data w = (Val tt, set_fs (<[p := File data]> (fs w)) w).
Proof.
  intros Hp Hne Hd. unfold write_file, bind, gets. rewrite Hp.
  unfold is_dir. destruct (parent p); [congruence |]. now rewrite Hd.
Qed.

Lemma read_text_run (p : path) w c s :
  fs w !! p = Some (File c) -> decode E c = Some s ->
  read_text E p w = (Val (universal_newlines s), w).
Proof.
  intros Hp Hd. unfold read_text, read_bytes, bind, gets. rewrite Hp. cbn. now rewrite Hd.
Qed.

(** A text without a carriage return is read as it is. *)
Lemma universal_newlines_without_CR (s : string) :
  str_contains CR s = false -> universal_newlines s = s.
Proof.
  induction s as [|c s IH]; intros Hn; [reflexivity |].
  cbn [str_contains String.prefix CR] in Hn. cbn [universal_newlines].
  destruct (ascii_dec "013" c) as [<- | Hc]; [destruct s; discriminate Hn |].
  assert (Ascii.eqb c "013" = false) as -> by (apply Ascii.eqb_neq; congruence).
  now rewrite IH.
Qed.

(** A text without a line feed was read from the same text. *)
Lemma universal_newlines_inv (s t : string) :
  universal_newlines s = t -> str_contains LF t = false -> s = t.
Proof.
  revert t. induction s as [|c s IH]; intros t Ht Hn; [exact Ht |].
  cbn [universal_newlines] in Ht. destruct (Ascii.eqb c "013") eqn:Hc.
  - assert (exists t', t = String "010" t') as [t' ->]
      by (destruct s as [|[[] [] [] [] [] [] [] []] s'];
          (eexists; symmetry; exact Ht)).
    cbn in Hn. destruct t'; discriminate Hn.
  - destruct t as [|c' t']; [discriminate Ht |].
    injection Ht as -> Ht.
    assert (str_contains LF t' = false) as Hn'.
    { cbn [str_contains String.prefix LF] in Hn.
      destruct (ascii_dec "010" c'); [destruct t'; discriminate Hn | exact Hn]. }
    now rewrite (IH t' Ht Hn').
Qed.

Lemma marker_is_read_as_written (st : string) :
  st <> "200" -> String.eqb (universal_newlines st) "200" = false.
Proof.
  intros Hst. apply String.eqb_neq. intros H. apply Hst.
  now apply universal_newlines_inv.
Qed.

Lemma insert_new_calculation_run id w :
  insert_new_calculation E id w
  = (Val tt,
     set_db (db w ++ [{| calculation_id := id; state := 0; message := None;
                         created_at := clock E (ticks w);
                         updated_at := clock E (S (ticks w)) |}])
            (tick (tick w))).
Proof. reflexivity. Qed.

(** The three steps that create a job, on a world without its directory. *)
Lemma create_job id content w :
  fs w !! target_directory_of id = None ->
  fs w !! modflow_file_of id = None ->
  folder_free (fs w) ->
  (os_makedirs (target_directory_of id) ;;;
   write_json E (modflow_file_of id) content ;;;
   insert_new_calculation E id) w = (Val tt, submitted E id content w).
Proof.
  intros Hdir Hcfg Hm.
  erewrite bind_Val by now apply makedirs_target.
  unfold write_json. erewrite bind_Val.
  2:{ apply write_file_in; cbn [fs set_fs].
      - rewrite !lookup_insert_ne by paths_ne. exact Hcfg.
      - discriminate.
      - replace (parent (modflow_file_of id)) with (target_directory_of id) by reflexivity.
        rewrite lookup_insert_ne by paths_ne. apply lookup_insert_eq. }
  rewrite insert_new_calculation_run. reflexivity.
Qed.

Lemma create_job_then {A} (k : M A) id content w :
  fs w !! target_directory_of id = None ->
  fs w !! modflow_file_of id = None ->
  folder_free (fs w) ->
  (os_makedirs (target_directory_of id) ;;;
   write_json E (modflow_file_of id) content ;;;
   insert_new_calculation E id ;;; k) w = k (submitted E id content w).
Proof.
  intros Hdir Hcfg Hm.
  erewrite bind_Val by now apply makedirs_target.
  unfold write_json. erewrite bind_Val.
  2:{ apply write_file_in; cbn [fs set_fs].
      - rewrite !lookup_insert_ne by paths_ne. exact Hcfg.
      - discriminate.
      - replace (parent (modflow_file_of id)) with (target_directory_of id) by reflexivity.
        rewrite lookup_insert_ne by paths_ne. apply lookup_insert_eq. }
  erewrite bind_Val by apply insert_new_calculation_run. reflexivity.
Qed.

(** A new id: the job is created and queued. *)
Lemma inline_fresh payload content id w :
  json_loads E payload = Some content ->
  validity E content = Val true ->
  names_id content id ->
  fs w !! target_directory_of id = None ->
  fs w !! modflow_file_of id = None ->
  folder_free (fs w) ->
  upload_inline E (inline_request payload) w
  = (Val (Body (json_dumps E (identity id))), submitted E id content w).
Proof.
  intros Hl Hv (d & -> & Hid) Hdir Hcfg Hm.
  unfold upload_inline. cbn [body inline_request]. rewrite Hl.
  rewrite (bind_Val _ _ w (JDict d) w) by reflexivity.
  rewrite (bind_Val _ _ w true w) by now apply is_valid_run.
  cbn [negb when]. rewrite (bind_Val _ _ w tt w) by reflexivity.
  unfold py_get. rewrite Hid. cbn [default from_option].
  rewrite (bind_Val _ _ w (JStr id) w) by reflexivity.
  rewrite (bind_Val _ _ w id w) by reflexivity.
  rewrite (bind_Val _ _ w false w)
    by (unfold os_path_exists, gets; now absent Hcfg).
  cbn [when]. rewrite (bind_Val _ _ w tt w) by reflexivity.
  rewrite (bind_Val _ _ w false w)
    by (unfold os_path_exists, gets; now absent Hcfg).
  cbn [when negb].
  rewrite (bind_Val _ _ w tt (submitted E id (JDict d) w)) by now apply create_job.
  reflexivity.
Qed.

(** A failed job: the directory is purged and the job is created anew. *)
Lemma inline_failed payload content id w n c st :
  json_loads E payload = Some content ->
  validity E content = Val true ->
  names_id content id ->
  fs w !! target_directory_of id = Some Dir ->
  fs w !! modflow_file_of id = Some n ->
  fs w !! state_log_of id = Some (File c) ->
  decode E c = Some st ->
  st <> "200" ->
  folder_free (fs w) ->
  upload_inline E (inline_request payload) w
  = (Val (Body (json_dumps E (identity id))),
     submitted E id content (set_fs (purge (target_directory_of id) (fs w)) w)).
Proof.
  intros Hl Hv (d & -> & Hid) Hdir Hcfg Hlog Hdec Hst Hm.
  set (w1 := set_fs (purge (target_directory_of id) (fs w)) w).
  assert (fs w1 !! modflow_file_of id = None) as Hcfg1
    by (apply purge_below; [exact Hdir | now exists ["configuration.json"]]).
  assert (fs w1 !! target_directory_of id = None) as Hdir1
    by (apply purge_below; [exact Hdir | reflexivity]).
  assert (folder_free (fs w1)) as Hm1.
  { unfold folder_free, w1. cbn [fs set_fs]. rewrite purge_outside; [exact Hm |].
    intros [k Hk]. discriminate Hk. }
  unfold upload_inline. cbn [body inline_request]. rewrite Hl.
  rewrite (bind_Val _ _ w (JDict d) w) by reflexivity.
  rewrite (bind_Val _ _ w true w) by now apply is_valid_run.
  cbn [negb when]. rewrite (bind_Val _ _ w tt w) by reflexivity.
  unfold py_get. rewrite Hid. cbn [default from_option].
  rewrite (bind_Val _ _ w (JStr id) w) by reflexivity.
  rewrite (bind_Val _ _ w id w) by reflexivity.
  rewrite (bind_Val _ _ w true w)
    by (unfold os_path_exists, gets; now present Hcfg).
  rewrite (bind_Val _ _ w tt w1).
  2:{ cbn [when].
      rewrite (bind_Val _ _ w true w) by (unfold os_path_exists, gets; now present Hlog).
      cbn [when negb]. rewrite (bind_Val _ _ w tt w) by reflexivity.
      rewrite (bind_Val _ _ w (universal_newlines st) w)
        by now apply read_text_run with c.
      rewrite (marker_is_read_as_written st Hst). reflexivity. }
  rewrite (bind_Val _ _ w1 false w1)
    by (unfold os_path_exists, gets; now absent Hcfg1).
  cbn [when negb].
  rewrite (bind_Val _ _ w1 tt (submitted E id (JDict d) w1)) by now apply create_job.
  reflexivity.
Qed.

(** *** Upload of a file, case by case *)

Lemma upload_file_multipart filename payload w :
  upload_file E (multipart_request filename payload) w
  = upload_multipart E (multipart_request filename payload) w.
Proof. reflexivity. Qed.

Lemma temp_parent w : parent (temp_file_of E w) = abspath UPLOAD_FOLDER w.
Proof. apply removelast_last. Qed.

Lemma upload_folder_below_root w : abspath UPLOAD_FOLDER w <> [].
Proof. unfold abspath. destruct (cwd w); discriminate. Qed.

Lemma temp_ne_folder w : temp_file_of E w <> MODFLOW_FOLDER.
Proof.
  unfold temp_file_of, abspath, os_path_join. destruct (cwd w) as [|a [|b l]]; discriminate.
Qed.

Lemma temp_ne_directory w id : temp_file_of E w <> target_directory_of id.
Proof.
  unfold temp_file_of, abspath, target_directory_of, os_path_join.
  destruct (cwd w) as [|a [|b [|c l]]]; discriminate.
Qed.

(** The upload folder is there and the folder of the job is not: the two
    differ, and so do the files in them. *)
Lemma temp_ne_configuration w id :
  fs w !! abspath UPLOAD_FOLDER w = Some Dir ->
  fs w !! target_directory_of id = None ->
  temp_file_of E w <> modflow_file_of id.
Proof.
  intros Hup Hdir Heq.
  assert (parent (temp_file_of E w) = parent (modflow_file_of id)) as Hp by now rewrite Heq.
  rewrite temp_parent in Hp.
  replace (parent (modflow_file_of id)) with (target_directory_of id) in Hp
    by (symmetry; apply removelast_last).
  congruence.
Qed.

Lemma saved_lookup payload w (p : path) :
  p <> temp_file_of E w -> fs (saved E payload w) !! p = fs w !! p.
Proof.
  intros Hp. cbn [saved fs set_fs]. apply lookup_insert_ne. congruence.
Qed.

(** The steps every upload starts with: save the file, read it back. *)
Ltac save_upload Hname Hup Htmp Hl :=
  unfold upload_multipart; cbn [files multipart_request assoc String.eqb Ascii.eqb Bool.eqb];
  apply String.eqb_neq in Hname; rewrite Hname;
  erewrite bind_Val by reflexivity;
  erewrite bind_Val by reflexivity;
  match type of Htmp with
  | fs ?w0 !! _ = None =>
      change (os_path_join (abspath UPLOAD_FOLDER (draw w0)) (uuid4 E (uuids w0) +:+ ".json"))
        with (temp_file_of E w0);
      erewrite bind_Val
        by (apply write_file_in;
            [exact Htmp | rewrite temp_parent; apply upload_folder_below_root
            | rewrite temp_parent; exact Hup])
  end;
  erewrite bind_Val
    by (unfold read_json, read_bytes, bind, gets; cbn [fs set_fs draw];
        rewrite lookup_insert_eq; cbn; rewrite Hl; reflexivity);
  match goal with
  | |- context [set_fs (<[?t := File ?p]> (fs ?w0)) (draw ?w0)] =>
      change (set_fs (<[t := File p]> (fs w0)) (draw w0)) with (saved E p w0)
  end.

(** Without an upload folder in the working directory the file cannot be
    saved: the upload ends there. *)
Lemma multipart_unsaved filename payload w :
  filename <> "" ->
  fs w !! abspath UPLOAD_FOLDER w = None ->
  fs w !! temp_file_of E w = None ->
  upload_multipart E (multipart_request filename payload) w
  = (Raise ExFileNotFound, draw w).
Proof.
  intros Hname Hup Htmp.
  unfold upload_multipart; cbn [files multipart_request assoc String.eqb Ascii.eqb Bool.eqb].
  apply String.eqb_neq in Hname; rewrite Hname.
  erewrite bind_Val by reflexivity. erewrite bind_Val by reflexivity.
  change (os_path_join (abspath UPLOAD_FOLDER (draw w)) (uuid4 E (uuids w) +:+ ".json"))
    with (temp_file_of E w).
  erewrite bind_Raise; [reflexivity |].
  unfold write_file, bind, gets. cbn [fs draw]. rewrite Htmp, temp_parent.
  unfold is_dir, exists_in. rewrite Hup.
  pose proof (upload_folder_below_root w). now destruct (abspath UPLOAD_FOLDER w).
Qed.

Lemma multipart_invalid filename payload content w :
  filename <> "" ->
  fs w !! abspath UPLOAD_FOLDER w = Some Dir ->
  fs w !! temp_file_of E w = None ->
  json_loads_text E payload = Some content ->
  validity E content = Val false ->
  upload_multipart E (multipart_request filename payload) w
  = (Abort 422 (JStr "This JSON file does not match with the MODFLOW JSON Schema"),
     draw w).
Proof.
  intros Hname Hup Htmp Hl Hv. save_upload Hname Hup Htmp Hl.
  erewrite bind_Val by (apply is_valid_run; exact Hv).
  cbn [negb when]. erewrite bind_Abort; [reflexivity |].
  erewrite bind_Val.
  2:{ unfold os_remove, bind, gets. cbn [fs set_fs draw saved].
      rewrite lookup_insert_eq. reflexivity. }
  unfold abort. cbn [fs set_fs draw saved]. rewrite delete_insert_id by exact Htmp.
  now destruct w.
Qed.

Lemma multipart_error filename payload content w e :
  filename <> "" ->
  fs w !! abspath UPLOAD_FOLDER w = Some Dir ->
  fs w !! temp_file_of E w = None ->
  json_loads_text E payload = Some content ->
  validity E content = Raise e ->
  upload_multipart E (multipart_request filename payload) w
  = (Raise e, saved E payload w).
Proof.
  intros Hname Hup Htmp Hl Hv. save_upload Hname Hup Htmp Hl.
  erewrite bind_Raise; [reflexivity |]. now rewrite is_valid_validity, Hv.
Qed.

Lemma multipart_existing filename payload content id w n :
  filename <> "" ->
  fs w !! abspath UPLOAD_FOLDER w = Some Dir ->
  fs w !! temp_file_of E w = None ->
  json_loads_text E payload = Some content ->
  validity E content = Val true ->
  names_id content id ->
  fs w !! modflow_file_of id = Some n ->
  upload_multipart E (multipart_request filename payload) w
  = (Abort 422 (JStr ("Model with calculationId: " +:+ id +:+ " already exits.")),
     saved E payload w).
Proof.
  intros Hname Hup Htmp Hl Hv (d & -> & Hid) Hcfg. save_upload Hname Hup Htmp Hl.
  erewrite bind_Val by (apply is_valid_run; exact Hv).
  cbn [negb when]. erewrite bind_Val by reflexivity.
  unfold py_get. rewrite Hid. cbn [default from_option].
  erewrite bind_Val by reflexivity. erewrite bind_Val by reflexivity.
  erewrite bind_Val.
  2:{ unfold os_path_exists, gets.
      rewrite (exists_in_true _ _ n); [reflexivity |].
      rewrite saved_lookup by congruence. exact Hcfg. }
  reflexivity.
Qed.

Lemma multipart_fresh filename payload content id w :
  filename <> "" ->
  fs w !! abspath UPLOAD_FOLDER w = Some Dir ->
  fs w !! temp_file_of E w = None ->
  json_loads_text E payload = Some content ->
  validity E content = Val true ->
  names_id content id ->
  fs w !! target_directory_of id = None ->
  fs w !! modflow_file_of id = None ->
  folder_free (fs w) ->
  upload_multipart E (multipart_request filename payload) w
  = (Val (RedirectTo ("/" +:+ id)), submitted E id content (saved E payload w)).
Proof.
  intros Hname Hup Htmp Hl Hv (d & -> & Hid) Hdir Hcfg Hm.
  pose proof (temp_ne_configuration w id Hup Hdir) as Hne.
  save_upload Hname Hup Htmp Hl.
  erewrite bind_Val by (apply is_valid_run; exact Hv).
  cbn [negb when]. erewrite bind_Val by reflexivity.
  unfold py_get. rewrite Hid. cbn [default from_option].
  erewrite bind_Val by reflexivity. erewrite bind_Val by reflexivity.
  assert (fs (saved E payload w) !! modflow_file_of id = None) as Hcfg'
    by (rewrite saved_lookup by congruence; exact Hcfg).
  erewrite bind_Val by (unfold os_path_exists, gets; now absent Hcfg').
  cbn [when]. erewrite bind_Val by reflexivity.
  rewrite create_job_then; [reflexivity | | exact Hcfg' |].
  - rewrite saved_lookup by (pose proof (temp_ne_directory w id); congruence). exact Hdir.
  - unfold folder_free.
    rewrite saved_lookup by (pose proof (temp_ne_folder w); congruence). exact Hm.
Qed.
(** *** The guard of the queries *)

Lemma guard_passes {A} (rest : M A) id w n :
  fs w !! modflow_file_of id = Some n ->
  (require_configuration id ;;; rest) w = rest w.
Proof.
  intros H. unfold require_configuration, os_path_exists, bind, gets. now present H.
Qed.


Lemma avoids_ret {A} d (a : A) : avoids d (ret a).
Proof. intros w code. discriminate. Qed.

Lemma avoids_raise {A} d e : avoids d (@raise A e).
Proof. intros w code. discriminate. Qed.

Lemma avoids_gets {A} d (f : World -> A) : avoids d (gets f).
Proof. intros w code. discriminate. Qed.

Lemma avoids_modify d f : avoids d (modify f).
Proof. intros w code. discriminate. Qed.

Lemma avoids_abort {A} d code' d' : d <> d' -> avoids d (@abort A code' d').
Proof. intros Hne w code. cbn. congruence. Qed.

Lemma avoids_bind {A B} d (c : M A) (k : A -> M B) :
  avoids d c -> (forall a, avoids d (k a)) -> avoids d (bind c k).
Proof.
  intros Hc Hk w code. unfold bind. specialize (Hc w).
  destruct (c w) as [[a | code' d' | e] w']; cbn in *.
  - apply Hk.
  - intros H. apply (Hc code). congruence.
  - discriminate.
Qed.

Lemma avoids_when d b (c : M unit) : avoids d c -> avoids d (when b c).
Proof. intros Hc. destruct b; [exact Hc | apply avoids_ret]. Qed.

Ltac avoid_step :=
  first
    [ apply avoids_ret | apply avoids_raise | apply avoids_gets | apply avoids_modify
    | apply avoids_abort; cbn; discriminate
    | apply avoids_when
    | apply avoids_bind; [| intros ?]
    | match goal with
      | |- avoids _ (match ?x with _ => _ end) => destruct x
      end ].

Ltac avoid := repeat avoid_step.

(** *** The queries as equations *)

Arguments Z.geb : simpl never.
Arguments float_in : simpl never.
Arguments calculation_not_found : simpl never.
Arguments type_not_permitted : simpl never.
Arguments totim_not_available : simpl never.
Arguments layer_too_large : simpl never.
Arguments substance_not_available : simpl never.
Arguments totim_key_not_available : simpl never.

(** Run both sides, splitting on every test that is left. *)
Ltac crunch :=
  repeat (cbn;
          match goal with
          | |- context [if ?b then _ else _] => destruct b eqn:?
          | |- context [match ?x with Some _ => _ | None => _ end] => destruct x eqn:?
          end);
  cbn; try reflexivity.

Lemma layer_slice_eq k folder totim layer w :
  let r := reader_of E k (fs w) folder in
  layer_slice E k folder totim layer w
  = if negb (float_in totim (times r))
    then (Abort 404 (totim_not_available E totim (times r)), log (RdTimes k) w)
    else if layer >=? number_of_layers r
    then (Abort 404 (layer_too_large (number_of_layers r)),
          log (RdLayers k) (log (RdTimes k) w))
    else (answer E (layer_array r totim layer),
          log (RdLayer k totim layer) (log (RdLayers k) (log (RdTimes k) w))).
Proof.
  intros r. unfold layer_slice, read_times, read_number_of_layers, read_layer, reader,
    called, bind, gets, modify, when, ret, abort, raise, answer. subst r. crunch.
Qed.

Lemma head_drawdown_eq id t layer_s totim_s w n totim layer k :
  fs w !! modflow_file_of id = Some n ->
  py_float E totim_s = Some totim ->
  py_int E layer_s = Some layer ->
  kind_of_type t = Some k ->
  get_results_head_drawdown E id t layer_s totim_s w
  = layer_slice E k (target_directory_of id) totim layer w.
Proof.
  intros Hcfg Hf Hi Hk. unfold get_results_head_drawdown.
  rewrite (guard_passes _ _ _ _ Hcfg). unfold to_float, to_int. rewrite Hf, Hi.
  erewrite bind_Val by reflexivity. erewrite bind_Val by reflexivity.
  unfold kind_of_type in Hk. unfold str_in, permitted_types. cbn [existsb].
  destruct (String.eqb t "head").
  - injection Hk as <-. reflexivity.
  - destruct (String.eqb t "drawdown"); [| discriminate].
    injection Hk as <-. reflexivity.
Qed.

Lemma time_series_eq id t layer_s row_s col_s w n layer row col k :
  fs w !! modflow_file_of id = Some n ->
  py_int E layer_s = Some layer ->
  py_int E row_s = Some row ->
  py_int E col_s = Some col ->
  kind_of_type t = Some k ->
  get_results_time_series E id t layer_s row_s col_s w
  = (answer E (time_series (reader_of E k (fs w) (target_directory_of id)) layer row col),
     log (RdTs k layer row col) w).
Proof.
  intros Hcfg Hl Hr Hc Hk. unfold get_results_time_series.
  rewrite (guard_passes _ _ _ _ Hcfg). unfold to_int. rewrite Hl, Hr, Hc.
  do 3 (erewrite bind_Val by reflexivity).
  unfold kind_of_type in Hk. unfold str_in, permitted_types. cbn [existsb].
  unfold read_ts, reader, called, bind, gets, modify, when, ret, abort, raise, answer.
  destruct (String.eqb t "head").
  - injection Hk as <-. cbn. now destruct (time_series _ layer row col).
  - destruct (String.eqb t "drawdown"); [| discriminate].
    injection Hk as <-. cbn. now destruct (time_series _ layer row col).
Qed.

Lemma budget_by_totim_eq id totim_s w n totim :
  fs w !! modflow_file_of id = Some n ->
  py_float E totim_s = Some totim ->
  let r := reader_of E KBudget (fs w) (target_directory_of id) in
  get_results_budget_by_totim E id totim_s w
  = if negb (float_in totim (times r))
    then (Abort 404 (totim_not_available E totim (times r)), log (RdTimes KBudget) w)
    else (budget_answer E (budget_by_totim r totim false) (budget_by_totim r totim true),
          match budget_by_totim r totim false with
          | Some _ => log (RdBudgetTotim totim true)
                        (log (RdBudgetTotim totim false) (log (RdTimes KBudget) w))
          | None => log (RdBudgetTotim totim false) (log (RdTimes KBudget) w)
          end).
Proof.
  intros Hcfg Hf r. unfold get_results_budget_by_totim.
  rewrite (guard_passes _ _ _ _ Hcfg). unfold to_float. rewrite Hf.
  erewrite bind_Val by reflexivity.
  unfold read_times, read_budget_by_totim, reader, called, bind, gets, modify, when,
    ret, abort, raise, budget_answer. subst r. crunch.
Qed.

Lemma budget_by_idx_eq id idx_s w n idx :
  fs w !! modflow_file_of id = Some n ->
  py_int E idx_s = Some idx ->
  let r := reader_of E KBudget (fs w) (target_directory_of id) in
  get_results_budget_by_idx E id idx_s w
  = if idx >=? Z.of_nat (length (times r))
    then (Abort 404 (totim_key_not_available idx (length (times r))),
          log (RdTimes KBudget) w)
    else (budget_answer E (budget_by_idx r idx false) (budget_by_idx r idx true),
          match budget_by_idx r idx false with
          | Some _ => log (RdBudgetIdx idx true)
                        (log (RdBudgetIdx idx false) (log (RdTimes KBudget) w))
          | None => log (RdBudgetIdx idx false) (log (RdTimes KBudget) w)
          end).
Proof.
  intros Hcfg Hi r. unfold get_results_budget_by_idx.
  rewrite (guard_passes _ _ _ _ Hcfg). unfold to_int. rewrite Hi.
  erewrite bind_Val by reflexivity.
  unfold read_times, read_budget_by_idx, reader, called, bind, gets, modify, when,
    ret, abort, raise, budget_answer. subst r. crunch.
Qed.

Lemma concentration_eq id substance_s layer_s totim_s w n substance layer totim :
  fs w !! modflow_file_of id = Some n ->
  py_int E layer_s = Some layer ->
  py_int E substance_s = Some substance ->
  py_float E totim_s = Some totim ->
  let r := reader_of E KConcentration (fs w) (target_directory_of id) in
  get_results_concentration E id substance_s layer_s totim_s w
  = if substance >=? number_of_substances r
    then (Abort 404 (substance_not_available substance (number_of_substances r)),
          log RdSubstances w)
    else if negb (float_in totim (times r))
    then (Abort 404 (totim_not_available E totim (times r)),
          log (RdTimes KConcentration) (log RdSubstances w))
    else if layer >=? number_of_layers r
    then (Abort 404 (layer_too_large (number_of_layers r)),
          log (RdLayers KConcentration) (log (RdTimes KConcentration) (log RdSubstances w)))
    else (answer E (concentration_array r substance totim layer),
          log (RdConcentration substance totim layer)
            (log (RdLayers KConcentration)
               (log (RdTimes KConcentration) (log RdSubstances w)))).
Proof.
  intros Hcfg Hl Hs Hf r. unfold get_results_concentration.
  rewrite (guard_passes _ _ _ _ Hcfg). unfold to_int, to_float. rewrite Hl, Hs, Hf.
  do 3 (erewrite bind_Val by reflexivity).
  unfold read_number_of_substances, read_times, read_number_of_layers,
    read_concentration, reader, called, bind, gets, modify, when, ret, abort, raise,
    answer.
  subst r. crunch.
Qed.

(** *** When a job is deemed to exist *)

Ltac avoid_unfold :=
  progress unfold to_float, to_int, layer_slice, read_times, read_number_of_layers,
    read_number_of_substances, read_layer, read_ts, read_budget_by_totim,
    read_budget_by_idx, read_concentration, reader, called, read_json, read_text,
    read_bytes, py_get, py_item, range_length, get_calculation_details_json,
    get_calculation_by_id, os_path_isfile, os_listdir.

Ltac avoid_more :=
  first
    [ avoid_step
    | apply avoids_abort;
      unfold calculation_not_found, type_not_permitted, totim_not_available,
        layer_too_large, substance_not_available, totim_key_not_available;
      cbn; discriminate
    | match goal with
      | |- avoids _ (if ?b then _ else _) => destruct b
      end
    | avoid_unfold ].

Lemma guard_avoids {A} (rest : M A) id w n :
  fs w !! modflow_file_of id = Some n ->
  avoids (calculation_not_found id) rest ->
  forall code,
    fst ((require_configuration id ;;; rest) w) <> Abort code (calculation_not_found id).
Proof. intros H Hr code. rewrite (guard_passes _ _ _ _ H). apply Hr. Qed.

Lemma query_found q id w n :
  fs w !! modflow_file_of id = Some n ->
  forall code, fst (run_query E q id w) <> Abort code (calculation_not_found id).
Proof.
  intros H.
  destruct q; cbn [run_query];
    unfold calculation_details, get_results_head_drawdown, get_results_time_series,
      get_results_budget_by_totim, get_results_budget_by_idx, get_results_concentration;
    cbv zeta; apply guard_avoids with n; try exact H; repeat avoid_more.
Qed.




(** *** Binary files *)

Lemma contains_NUL_cons a s :
  str_contains NUL (String a s) = Ascii.eqb a zero_byte || str_contains NUL s.
Proof.
  cbn [str_contains]. unfold NUL at 1. cbn [String.prefix].
  destruct (ascii_dec "000" a) as [Heq | Hne].
  - subst a. now destruct s.
  - destruct (Ascii.eqb_spec a zero_byte) as [-> | _]; [now destruct Hne | reflexivity].
Qed.

Lemma contains_NUL_empty : str_contains NUL EmptyString = false.
Proof. reflexivity. Qed.

(** Looking block by block is looking at every byte. *)
Lemma blocks_cons a s :
  existsb (str_contains NUL) (readlines (String a s))
  = Ascii.eqb a zero_byte || existsb (str_contains NUL) (readlines s).
Proof.
  cbn [readlines]. destruct (Ascii.eqb a "010").
  - cbn [existsb]. now rewrite contains_NUL_cons, contains_NUL_empty, orb_false_r.
  - destruct (readlines s) as [| l ls]; cbn [existsb].
    + now rewrite contains_NUL_cons, contains_NUL_empty, !orb_false_r.
    + now rewrite contains_NUL_cons, orb_assoc.
Qed.

Lemma blocks_zero_byte c :
  existsb (str_contains NUL) (readlines c) = true <-> has_zero_byte c.
Proof.
  unfold has_zero_byte. induction c as [| a s IH].
  - cbn. split; [discriminate | tauto].
  - rewrite blocks_cons, orb_true_iff, IH. cbn [list_ascii_of_string In].
    rewrite Ascii.eqb_eq. split; intros [H | H]; auto.
Qed.

Lemma readlines_concat c : String.concat "" (readlines c) = c.
Proof.
  induction c as [| a s IH]; [reflexivity |].
  cbn [readlines]. destruct (Ascii.eqb a "010").
  - destruct (readlines s) as [| l ls] eqn:Hr.
    + cbn in *. now rewrite <- IH.
    + change (String.concat "" (String a "" :: l :: ls))
        with (String a (String.concat "" (l :: ls))). now rewrite IH.
  - destruct (readlines s) as [| l ls] eqn:Hr.
    + cbn in *. now rewrite <- IH.
    + rewrite <- IH. destruct ls; reflexivity.
Qed.

Lemma is_binary_eq (p : path) w c :
  fs w !! p = Some (File c) ->
  is_binary p w = (Val (existsb (str_contains NUL) (readlines c)), w).
Proof. intros H. unfold is_binary, read_bytes, bind, gets. now rewrite H. Qed.

Lemma get_file_eq id name w c :
  fs w !! os_path_join (target_directory_of id) name = Some (File c) ->
  get_file E id name w
  = (if existsb (str_contains NUL) (readlines c)
     then Val (file_answer E name binary_notice)
     else match decode E c with
          | Some s => Val (file_answer E name (universal_newlines s))
          | None => Raise ExUnicodeDecode
          end, w).
Proof.
  intros H. unfold get_file. cbv zeta.
  erewrite bind_Val by (unfold os_path_exists, gets; now present H).
  cbn [negb when]. erewrite bind_Val by reflexivity.
  erewrite bind_Val by (apply is_binary_eq; exact H).
  destruct (existsb _ _); [reflexivity |].
  unfold read_text, read_bytes, bind, gets. rewrite H. cbn.
  now destruct (decode E c).
Qed.

(** *** The submission gateway *)

Lemma bind_Val_inv {A B} (c : M A) (k : A -> M B) w r w' :
  bind c k w = (Val r, w') -> exists a w1, c w = (Val a, w1) /\ k a w1 = (Val r, w').
Proof.
  unfold bind. destruct (c w) as [[a | code d | e] w1]; intros H; try discriminate.
  now exists a, w1.
Qed.

(** Whatever an accepted inline submission did, it answers the identity. *)
Lemma inline_accepts_identity payload content id w0 r w0' :
  json_loads E payload = Some content ->
  names_id content id ->
  upload_inline E (inline_request payload) w0 = (Val r, w0') ->
  r = Body (json_dumps E (identity id)).
Proof.
  intros Hl (d & -> & Hid) H. unfold upload_inline in H. cbn [body inline_request] in H.
  rewrite Hl in H.
  rewrite (bind_Val _ _ w0 (JDict d) w0) in H by reflexivity.
  apply bind_Val_inv in H as (valid & w1 & _ & H).
  apply bind_Val_inv in H as (_ & w2 & _ & H).
  unfold py_get in H. rewrite Hid in H. cbn [default from_option] in H.
  rewrite (bind_Val _ _ w2 (JStr id) w2) in H by reflexivity.
  rewrite (bind_Val _ _ w2 id w2) in H by reflexivity.
  apply bind_Val_inv in H as (ex & w3 & _ & H).
  apply bind_Val_inv in H as (_ & w4 & _ & H).
  apply bind_Val_inv in H as (ex' & w5 & _ & H).
  apply bind_Val_inv in H as (_ & w6 & _ & H).
  now injection H as <- _.
Qed.

(** C1 (the code departs from the claim).  An inline resubmission of an id
    whose configuration file exists while the marker [state.log] is absent
    deletes the directory, and then reads the marker all the same: the read
    raises [FileNotFoundError], so the directory is not made again, no
    record is inserted and no identity is returned. *)
Theorem resubmit_abandoned_raises payload content id w n :
  json_loads E payload = Some content ->
  validity E content = Val true ->
  names_id content id ->
  fs w !! modflow_file_of id = Some n ->
  fs w !! state_log_of id = None ->
  upload_file E (inline_request payload) w
  = (Raise ExFileNotFound, set_fs (purge (target_directory_of id) (fs w)) w)
  /\ db (snd (upload_file E (inline_request payload) w)) = db w
  /\ (fs w !! target_directory_of id = Some Dir ->
      fs (snd (upload_file E (inline_request payload) w)) !! target_directory_of id = None
      /\ fs (snd (upload_file E (inline_request payload) w)) !! modflow_file_of id = None).
Proof.
  intros Hl Hv Hid Hcfg Hlog.
  rewrite upload_file_inline, (inline_abandoned _ _ _ _ _ Hl Hv Hid Hcfg Hlog).
  cbn [snd fs db set_fs]. repeat split.
  - now apply purge_below.
  - apply purge_below; [assumption | now exists ["configuration.json"]].
Qed.

(** C2.  An inline resubmission of an id whose configuration file exists and
    whose marker reads the success code changes nothing (no directory is
    deleted or made, no record is inserted) and answers the identity, which
    is what every accepted inline submission of the document answers. *)
Theorem resubmit_finished_idempotent payload content id w n c :
  json_loads E payload = Some content ->
  validity E content = Val true ->
  names_id content id ->
  fs w !! modflow_file_of id = Some n ->
  fs w !! state_log_of id = Some (File c) ->
  decode E c = Some "200" ->
  upload_file E (inline_request payload) w = (Val (Body (json_dumps E (identity id))), w)
  /\ forall w0 r w0',
       upload_file E (inline_request payload) w0 = (Val r, w0') ->
       r = Body (json_dumps E (identity id)).
Proof.
  intros Hl Hv Hid Hcfg Hlog Hdec. split.
  - rewrite upload_file_inline. now apply inline_finished with content n c.
  - intros w0 r w0' H. rewrite upload_file_inline in H.
    now apply inline_accepts_identity with payload content w0 w0'.
Qed.

Lemma validity_sub_documents content :
  validity E content
  = match sub_documents content with
    | Some (mf, mt) =>
        schema_verdict (schema_validate E mf_schema_url mf)
          (if truthy mt
           then schema_verdict (schema_validate E mt_schema_url mt) (Val true)
           else Val true)
    | None => Val false
    end.
Proof.
  unfold validity, sub_documents. destruct content; try reflexivity.
  now destruct (default JNull (assoc "data" d)).
Qed.

Lemma inline_invalid payload content w :
  json_loads E payload = Some content ->
  validity E content = Val false ->
  upload_inline E (inline_request payload) w = (Abort 422 (JStr "Content is not valid."), w).
Proof.
  intros Hl Hv. unfold upload_inline. cbn [body inline_request]. rewrite Hl.
  erewrite bind_Val by reflexivity.
  erewrite bind_Val by (apply is_valid_run; exact Hv).
  reflexivity.
Qed.

Lemma inline_error payload content w e :
  json_loads E payload = Some content ->
  validity E content = Raise e ->
  upload_inline E (inline_request payload) w = (Raise e, w).
Proof.
  intros Hl Hv. unfold upload_inline. cbn [body inline_request]. rewrite Hl.
  erewrite bind_Val by reflexivity.
  erewrite bind_Raise; [reflexivity |]. now rewrite is_valid_validity, Hv.
Qed.

(** C3 (amended).  Let the body of the request and the saved file parse
    into the same document, and let the upload folder be there in the working
    directory.  Both deliveries get the same verdict of the validation.  For
    a plain id that is new they make the same directory, configuration file
    and registry record, and differ on no path but the saved upload; the
    upload answers with a redirect where the inline delivery answers the
    identity.  For an id whose configuration file exists the upload is
    rejected with a 422, and leaves the registry and every path but the saved
    upload as they are: it has no resubmission. *)
Theorem delivery_shapes_agree_on_new_ids filename payload content id w :
  filename <> "" ->
  fs w !! abspath UPLOAD_FOLDER w = Some Dir ->
  fs w !! temp_file_of E w = None ->
  json_loads E payload = Some content ->
  json_loads_text E payload = Some content ->
  names_id content id ->
  let I := upload_file E (inline_request payload) w in
  let U := upload_file E (multipart_request filename payload) w in
  (validity E content = Val false ->
     (exists d, fst I = Abort 422 d) /\ (exists d, fst U = Abort 422 d))
  /\ (forall e, validity E content = Raise e -> fst I = Raise e /\ fst U = Raise e)
  /\ (validity E content = Val true ->
      plain_component id ->
      (fs w !! target_directory_of id = None ->
       fs w !! modflow_file_of id = None ->
       folder_free (fs w) ->
         fst I = Val (Body (json_dumps E (identity id)))
         /\ fst U = Val (RedirectTo ("/" +:+ id))
         /\ db (snd U) = db (snd I)
         /\ forall p : path, p <> temp_file_of E w -> fs (snd U) !! p = fs (snd I) !! p)
      /\ (forall n, fs w !! modflow_file_of id = Some n ->
            fst U = Abort 422 (JStr ("Model with calculationId: " +:+ id +:+ " already exits."))
            /\ db (snd U) = db w
            /\ forall p : path, p <> temp_file_of E w -> fs (snd U) !! p = fs w !! p)).
Proof.
  intros Hname Hup Htmp Hl Ht Hid I U. subst I U.
  rewrite upload_file_inline, upload_file_multipart.
  split; [| split].
  - intros Hv. rewrite (inline_invalid _ _ _ Hl Hv).
    rewrite (multipart_invalid _ _ _ _ Hname Hup Htmp Ht Hv). split; eexists; reflexivity.
  - intros e Hv. rewrite (inline_error _ _ _ _ Hl Hv).
    rewrite (multipart_error _ _ _ _ _ Hname Hup Htmp Ht Hv). now split.
  - intros Hv _. split.
    + intros Hdir Hcfg Hm.
      rewrite (inline_fresh _ _ _ _ Hl Hv Hid Hdir Hcfg Hm).
      rewrite (multipart_fresh _ _ _ _ _ Hname Hup Htmp Ht Hv Hid Hdir Hcfg Hm).
      cbn [fst snd]. repeat split.
      intros p Hp. cbn [fs submitted].
      assert (fs (saved E payload w) !! p = fs w !! p) as Hs by now apply saved_lookup.
      destruct (decide (modflow_file_of id = p)) as [<- | Hn1];
        [now rewrite !lookup_insert_eq |].
      rewrite !(lookup_insert_ne _ (modflow_file_of id)) by exact Hn1.
      destruct (decide (MODFLOW_FOLDER = p)) as [<- | Hn2];
        [now rewrite !lookup_insert_eq |].
      rewrite !(lookup_insert_ne _ MODFLOW_FOLDER) by exact Hn2.
      destruct (decide (target_directory_of id = p)) as [<- | Hn3];
        [now rewrite !lookup_insert_eq |].
      rewrite !(lookup_insert_ne _ (target_directory_of id)) by exact Hn3.
      exact Hs.
    + intros n Hcfg.
      rewrite (multipart_existing _ _ _ _ _ _ Hname Hup Htmp Ht Hv Hid Hcfg).
      cbn [fst snd]. repeat split. intros p Hp. now apply saved_lookup.
Qed.

(** C4 (amended).  A document without the shape for validation, or whose
    sub-document the schema refuses, is invalid: the submission is rejected
    with a 422, and neither a registry entry nor a directory is made.  A
    schema server out of reach, or answering what is no JSON or no schema, is
    not taken as invalid: the exception leaves the view (a server error);
    there too neither a registry entry nor a directory is made.  An upload
    is validated once its file is saved in the upload folder of the working
    directory; where that folder is missing the upload ends before the
    validation, with [FileNotFoundError], and nothing is made either. *)
Theorem validation_failure_outcomes filename payload content w :
  let I := upload_file E (inline_request payload) w in
  let U := upload_file E (multipart_request filename payload) w in
  (json_loads E payload = Some content ->
     (validity E content = Val false -> I = (Abort 422 (JStr "Content is not valid."), w))
     /\ (forall e, validity E content = Raise e -> I = (Raise e, w)))
  /\ (filename <> "" ->
      fs w !! temp_file_of E w = None ->
      (fs w !! abspath UPLOAD_FOLDER w = Some Dir ->
       json_loads_text E payload = Some content ->
         (validity E content = Val false ->
            fst U = Abort 422 (JStr "This JSON file does not match with the MODFLOW JSON Schema")
            /\ fs (snd U) = fs w /\ db (snd U) = db w)
         /\ (forall e, validity E content = Raise e ->
               fst U = Raise e
               /\ db (snd U) = db w
               /\ forall p : path, fs (snd U) !! p = Some Dir -> fs w !! p = Some Dir))
      /\ (fs w !! abspath UPLOAD_FOLDER w = None ->
            fst U = Raise ExFileNotFound /\ fs (snd U) = fs w /\ db (snd U) = db w))
  /\ (sub_documents content = None -> validity E content = Val false)
  /\ (forall mf mt, sub_documents content = Some (mf, mt) ->
        validity E content
        = schema_verdict (schema_validate E mf_schema_url mf)
            (if truthy mt
             then schema_verdict (schema_validate E mt_schema_url mt) (Val true)
             else Val true))
  /\ (forall mf mt, sub_documents content = Some (mf, mt) ->
        (schema_validate E mf_schema_url mf = ValidationError -> validity E content = Val false)
        /\ (schema_validate E mf_schema_url mf = URLError -> validity E content = Raise ExURL)
        /\ (schema_validate E mf_schema_url mf = JSONDecodeError ->
            validity E content = Raise ExJSONDecode)
        /\ (schema_validate E mf_schema_url mf = SchemaError ->
            validity E content = Raise ExSchema)).
Proof.
  intros I U. subst I U.
  rewrite upload_file_inline, upload_file_multipart.
  split; [| split; [| split; [| split]]].
  - intros Hl. split.
    + intros Hv. exact (inline_invalid _ _ _ Hl Hv).
    + intros e Hv. exact (inline_error _ _ _ _ Hl Hv).
  - intros Hname Htmp. split.
    + intros Hup Hl. split.
      * intros Hv. rewrite (multipart_invalid _ _ _ _ Hname Hup Htmp Hl Hv).
        now repeat split.
      * intros e Hv. rewrite (multipart_error _ _ _ _ _ Hname Hup Htmp Hl Hv).
        cbn [fst snd]. repeat split.
        intros p Hp. cbn [saved fs set_fs] in Hp.
        destruct (decide (temp_file_of E w = p)) as [<- | Hne].
        -- rewrite lookup_insert_eq in Hp. discriminate.
        -- now rewrite lookup_insert_ne in Hp.
    + intros Hup. rewrite (multipart_unsaved _ _ _ Hname Hup Htmp). now repeat split.
  - intros Hs. now rewrite validity_sub_documents, Hs.
  - intros mf mt Hs. now rewrite validity_sub_documents, Hs.
  - intros mf mt Hs. rewrite validity_sub_documents, Hs.
    repeat split; intros ->; reflexivity.
Qed.

(** *** The result queries *)

(** C5 (amended).  A layer-slice query on an existing job whose layer is not
    below the layer count of the reader is rejected with a 404 before any
    array is read, whether the time is one of the reader's or not.  The
    time is checked first: the rejection carries the layer bound when the
    time is known, and the list of the times when it is not. *)
Theorem layer_beyond_count_rejected id t layer_s totim_s w n totim layer k :
  fs w !! modflow_file_of id = Some n ->
  py_float E totim_s = Some totim ->
  py_int E layer_s = Some layer ->
  kind_of_type t = Some k ->
  number_of_layers (reader_of E k (fs w) (target_directory_of id)) <= layer ->
  let r := reader_of E k (fs w) (target_directory_of id) in
  let R := get_results_head_drawdown E id t layer_s totim_s w in
  fst R = Abort 404 (if float_in totim (times r)
                     then layer_too_large (number_of_layers r)
                     else totim_not_available E totim (times r))
  /\ exists calls, trace (snd R) = trace w ++ calls /\ existsb is_array_read calls = false.
Proof.
  intros Hcfg Hf Hi Hk Hle r R. subst R.
  rewrite (head_drawdown_eq _ _ _ _ _ _ _ _ _ Hcfg Hf Hi Hk), layer_slice_eq.
  cbv zeta. fold r.
  assert ((layer >=? number_of_layers r) = true) as -> by (apply Z.geb_le; exact Hle).
  destruct (float_in totim (times r)); cbn [negb fst snd]; split; try reflexivity.
  - exists [RdTimes k; RdLayers k]. split; [| reflexivity].
    cbn [trace log]. now rewrite <- app_assoc.
  - now exists [RdTimes k].
Qed.

(** C6 (amended).  The integer selectors are checked from above only, and not
    all of them.  A layer, a substance or an index is rejected when it is at
    least the extent of the reader, and an index rejection names the range
    from 0 to the length of the series less one; a negative value passes
    the test and goes to the reader.  The time-series query checks neither
    layer nor row nor column: it hands them to the reader as they are. *)
Theorem selectors_checked_from_above id w n t k layer_s layer row_s row col_s col
    totim_s totim idx_s idx substance_s substance :
  fs w !! modflow_file_of id = Some n ->
  kind_of_type t = Some k ->
  py_int E layer_s = Some layer ->
  py_int E row_s = Some row ->
  py_int E col_s = Some col ->
  py_float E totim_s = Some totim ->
  py_int E idx_s = Some idx ->
  py_int E substance_s = Some substance ->
  let folder := target_directory_of id in
  let r := reader_of E k (fs w) folder in
  let b := reader_of E KBudget (fs w) folder in
  let c := reader_of E KConcentration (fs w) folder in
  (float_in totim (times r) = true ->
     get_results_head_drawdown E id t layer_s totim_s w
     = if layer >=? number_of_layers r
       then (Abort 404 (layer_too_large (number_of_layers r)),
             log (RdLayers k) (log (RdTimes k) w))
       else (answer E (layer_array r totim layer),
             log (RdLayer k totim layer) (log (RdLayers k) (log (RdTimes k) w))))
  /\ (float_in totim (times r) = true -> 0 <= number_of_layers r -> layer < 0 ->
        get_results_head_drawdown E id t layer_s totim_s w
        = (answer E (layer_array r totim layer),
           log (RdLayer k totim layer) (log (RdLayers k) (log (RdTimes k) w))))
  /\ get_results_time_series E id t layer_s row_s col_s w
     = (answer E (time_series r layer row col), log (RdTs k layer row col) w)
  /\ (fst (get_results_budget_by_idx E id idx_s w)
      = if idx >=? Z.of_nat (length (times b))
        then Abort 404 (JStr ("TotimKey: " +:+ pretty idx
                              +:+ " not available. Available keys are in between: 0 and "
                              +:+ pretty (Z.of_nat (length (times b)) - 1)))
        else budget_answer E (budget_by_idx b idx false) (budget_by_idx b idx true))
  /\ ((substance >=? number_of_substances c) = true ->
        get_results_concentration E id substance_s layer_s totim_s w
        = (Abort 404 (substance_not_available substance (number_of_substances c)),
           log RdSubstances w))
  /\ ((substance >=? number_of_substances c) = false ->
      float_in totim (times c) = true ->
        get_results_concentration E id substance_s layer_s totim_s w
        = if layer >=? number_of_layers c
          then (Abort 404 (layer_too_large (number_of_layers c)),
                log (RdLayers KConcentration)
                  (log (RdTimes KConcentration) (log RdSubstances w)))
          else (answer E (concentration_array c substance totim layer),
                log (RdConcentration substance totim layer)
                  (log (RdLayers KConcentration)
                     (log (RdTimes KConcentration) (log RdSubstances w))))).
Proof.
  intros Hcfg Hk Hl Hr Hc Hf Hi Hs folder r b c.
  split; [| split; [| split; [| split; [| split]]]].
  - intros Ht. rewrite (head_drawdown_eq _ _ _ _ _ _ _ _ _ Hcfg Hf Hl Hk), layer_slice_eq.
    cbv zeta. fold folder r. now rewrite Ht.
  - intros Ht Hn Hneg.
    rewrite (head_drawdown_eq _ _ _ _ _ _ _ _ _ Hcfg Hf Hl Hk), layer_slice_eq.
    cbv zeta. fold folder r. rewrite Ht. cbn [negb].
    assert ((layer >=? number_of_layers r) = false) as ->; [| reflexivity].
    rewrite Z.geb_leb. apply Z.leb_gt. lia.
  - apply (time_series_eq _ _ _ _ _ _ _ _ _ _ _ Hcfg Hl Hr Hc Hk).
  - rewrite (budget_by_idx_eq _ _ _ _ _ Hcfg Hi). cbv zeta. fold folder b.
    now destruct (idx >=? Z.of_nat (length (times b))).
  - intros Hge. rewrite (concentration_eq _ _ _ _ _ _ _ _ _ Hcfg Hl Hs Hf).
    cbv zeta. fold folder c. now rewrite Hge.
  - intros Hlt Ht. rewrite (concentration_eq _ _ _ _ _ _ _ _ _ Hcfg Hl Hs Hf).
    cbv zeta. fold folder c. now rewrite Hlt, Ht.
Qed.

(** C7 (amended).  A time that is not equal, as a float, to one of the times
    the reader reports is answered with a 404.  The layer-slice query and the
    budget-at-time query list exactly the reader's times in the rejection; so
    does the concentration query when the substance is below the substance
    count, and otherwise its rejection is the one of the substance, which is
    checked first. *)
Theorem unknown_time_not_found id w n t k layer_s layer totim_s totim substance_s substance :
  fs w !! modflow_file_of id = Some n ->
  kind_of_type t = Some k ->
  py_int E layer_s = Some layer ->
  py_float E totim_s = Some totim ->
  py_int E substance_s = Some substance ->
  let folder := target_directory_of id in
  let r := reader_of E k (fs w) folder in
  let b := reader_of E KBudget (fs w) folder in
  let c := reader_of E KConcentration (fs w) folder in
  (float_in totim (times r) = false ->
     get_results_head_drawdown E id t layer_s totim_s w
     = (Abort 404 (JStr ("Totim: " +:+ str_float E totim
                         +:+ " not available. Available totims are: "
                         +:+ String.concat ", " (map (str_float E) (times r)))),
        log (RdTimes k) w))
  /\ (float_in totim (times b) = false ->
        get_results_budget_by_totim E id totim_s w
        = (Abort 404 (JStr ("Totim: " +:+ str_float E totim
                            +:+ " not available. Available totims are: "
                            +:+ String.concat ", " (map (str_float E) (times b)))),
           log (RdTimes KBudget) w))
  /\ (float_in totim (times c) = false ->
        get_results_concentration E id substance_s layer_s totim_s w
        = if substance >=? number_of_substances c
          then (Abort 404 (substance_not_available substance (number_of_substances c)),
                log RdSubstances w)
          else (Abort 404 (JStr ("Totim: " +:+ str_float E totim
                                 +:+ " not available. Available totims are: "
                                 +:+ String.concat ", " (map (str_float E) (times c)))),
                log (RdTimes KConcentration) (log RdSubstances w))).
Proof.
  intros Hcfg Hk Hl Hf Hs folder r b c. split; [| split].
  - intros Ht. rewrite (head_drawdown_eq _ _ _ _ _ _ _ _ _ Hcfg Hf Hl Hk), layer_slice_eq.
    cbv zeta. fold folder r. now rewrite Ht.
  - intros Ht. rewrite (budget_by_totim_eq _ _ _ _ _ Hcfg Hf).
    cbv zeta. fold folder b. now rewrite Ht.
  - intros Ht. rewrite (concentration_eq _ _ _ _ _ _ _ _ _ Hcfg Hl Hs Hf).
    cbv zeta. fold folder c. rewrite Ht.
    now destruct (substance >=? number_of_substances c).
Qed.

(** C8 (amended).  For an existing output file with a zero byte, wherever
    it is, the file endpoint reports a binary file and keeps the content
    back.  For a file without one it gives back what a read in text mode
    gives: the decoded text with every [CR LF] and lone [CR] turned into
    [LF], or it raises [UnicodeDecodeError] when the bytes do not decode.
    The content comes back as it is in the file when the decoder leaves it
    as it is and it holds no [CR]. *)
Theorem file_shown_as_read_in_text_mode id name w c :
  fs w !! os_path_join (target_directory_of id) name = Some (File c) ->
  (has_zero_byte c ->
     get_file E id name w = (Val (file_answer E name binary_notice), w))
  /\ (~ has_zero_byte c ->
      get_file E id name w
      = (match decode E c with
         | Some s => Val (file_answer E name (universal_newlines s))
         | None => Raise ExUnicodeDecode
         end, w))
  /\ (~ has_zero_byte c -> decode E c = Some c -> str_contains CR c = false ->
      get_file E id name w = (Val (file_answer E name c), w)).
Proof.
  intros H. rewrite (get_file_eq _ _ _ _ H).
  assert (~ has_zero_byte c -> existsb (str_contains NUL) (readlines c) = false) as Hno.
  { intros Hz. destruct (existsb (str_contains NUL) (readlines c)) eqn:Hb; [| reflexivity].
    now apply blocks_zero_byte in Hb. }
  split; [| split].
  - intros Hz. apply blocks_zero_byte in Hz. now rewrite Hz.
  - intros Hz. now rewrite (Hno Hz).
  - intros Hz Hs Hcr. rewrite (Hno Hz), Hs. now rewrite universal_newlines_without_CR.
Qed.


(** *** The archive *)

(** C9 (the code departs from the claim).  The walk goes through the
    subdirectories, but each file is written to the archive under its bare
    name, which is resolved against the job directory: a file of a
    subdirectory is looked for in the job directory itself.  When no file of
    that name is there the download raises [FileNotFoundError] and gives no
    archive; when one is there, the archive holds that one twice and the
    file of the subdirectory not at all.  No name ending in [.json] gets in. *)
Theorem download_misses_subdirectory_files :
  fst (get_download_model "sim-001" (world_of nested_fs one_record)) = Raise ExFileNotFound
  /\ (exists z, fst (get_download_model "sim-001" (world_of shadowed_fs one_record))
                = Val (Attachment "application/zip" z "model-calculation-sim-001.zip")
                /\ Permutation z [("mf.list", "listing"); ("out.txt", "top"); ("out.txt", "top")]).
Proof.
  split; [vm_compute; reflexivity |].
  eexists. split; [vm_compute; reflexivity |].
  apply perm_swap.
Qed.

(** *** More of the gateway and of the archive *)

(** The first inline submission of a new id that is a plain name makes the
    directory with the configuration document in it and appends one record,
    Queued, to the registry; it answers the identity, and touches no other
    path than the folder of the jobs, the directory and the document. *)
Theorem first_submission_creates_job payload content id w :
  json_loads E payload = Some content ->
  validity E content = Val true ->
  names_id content id ->
  plain_component id ->
  fs w !! target_directory_of id = None ->
  fs w !! modflow_file_of id = None ->
  folder_free (fs w) ->
  let R := upload_file E (inline_request payload) w in
  fst R = Val (Body (json_dumps E (identity id)))
  /\ fs (snd R) !! target_directory_of id = Some Dir
  /\ fs (snd R) !! modflow_file_of id = Some (File (json_dumps E content))
  /\ (exists t1 t2,
        db (snd R) = db w ++ [{| calculation_id := id; state := 0; message := None;
                                 created_at := t1; updated_at := t2 |}])
  /\ forall p : path,
       p <> modflow_file_of id -> p <> target_directory_of id -> p <> MODFLOW_FOLDER ->
       fs (snd R) !! p = fs w !! p.
Proof.
  intros Hl Hv Hid _ Hdir Hcfg Hm R. subst R.
  rewrite upload_file_inline, (inline_fresh _ _ _ _ Hl Hv Hid Hdir Hcfg Hm).
  cbn [fst snd fs db submitted]. repeat split.
  - rewrite !lookup_insert_ne by paths_ne. apply lookup_insert_eq.
  - apply lookup_insert_eq.
  - now eexists _, _.
  - intros p H1 H2 H3. now rewrite !lookup_insert_ne by congruence.
Qed.

(** An inline resubmission of an id whose marker is there and does not read
    the success code purges the directory, makes the job anew and appends a
    fresh Queued record: the old record stays, and the files of the failed
    run are gone. *)
Theorem resubmit_failed_recreates payload content id w n c st :
  json_loads E payload = Some content ->
  validity E content = Val true ->
  names_id content id ->
  fs w !! target_directory_of id = Some Dir ->
  fs w !! modflow_file_of id = Some n ->
  fs w !! state_log_of id = Some (File c) ->
  decode E c = Some st ->
  st <> "200" ->
  folder_free (fs w) ->
  let R := upload_file E (inline_request payload) w in
  fst R = Val (Body (json_dumps E (identity id)))
  /\ fs (snd R) !! modflow_file_of id = Some (File (json_dumps E content))
  /\ fs (snd R) !! state_log_of id = None
  /\ (exists t1 t2,
        db (snd R) = db w ++ [{| calculation_id := id; state := 0; message := None;
                                 created_at := t1; updated_at := t2 |}]).
Proof.
  intros Hl Hv Hid Hdir Hcfg Hlog Hdec Hst Hm R. subst R.
  rewrite upload_file_inline,
    (inline_failed _ _ _ _ _ _ _ Hl Hv Hid Hdir Hcfg Hlog Hdec Hst Hm).
  cbn [fst snd fs db submitted set_fs]. repeat split.
  - apply lookup_insert_eq.
  - rewrite !lookup_insert_ne by paths_ne.
    apply purge_below; [exact Hdir | now exists ["state.log"]].
  - now eexists _, _.
Qed.

Lemma foldM_invariant {A B} (P : B -> Prop) (f : B -> A -> M B) (l : list A) :
  (forall b a w r w', P b -> f b a w = (Val r, w') -> P r) ->
  forall b w r w', P b -> foldM f l b w = (Val r, w') -> P r.
Proof.
  intros Hf. induction l as [| a l IH]; intros b w r w' Hb H.
  - cbn in H. injection H as <- _. exact Hb.
  - cbn [foldM] in H. apply bind_Val_inv in H as (b' & w1 & H1 & H2).
    apply (IH b' w1 r w'); [| exact H2]. now apply (Hf b a w b' w1).
Qed.

Lemma slash_is_not_json s : s +:+ "/" <> ".json".
Proof.
  destruct s as [| a1 [| a2 [| a3 [| a4 [| a5 s]]]]]; cbn; try discriminate.
  destruct s; discriminate.
Qed.

Lemma directory_entry_is_not_json s : str_endswith ".json" (s +:+ "/") = false.
Proof.
  induction s as [| a s IH]; [reflexivity |].
  change (String a s +:+ "/") with (String a (s +:+ "/")). cbn [str_endswith].
  rewrite IH.
  destruct (String.eqb_spec (String a (s +:+ "/")) ".json") as [Heq | _]; [| reflexivity].
  now destruct (slash_is_not_json (String a s)).
Qed.

(** Whatever the job directory holds, an archive that is produced has no
    entry whose name ends in [.json]. *)
Theorem archive_has_no_configuration_document id w m z name w' :
  get_download_model id w = (Val (Attachment m z name), w') ->
  Forall (fun entry => str_endswith ".json" (fst entry) = false) z.
Proof.
  intros H. unfold get_download_model in H.
  apply bind_Val_inv in H as (_ & w1 & _ & H).
  apply bind_Val_inv in H as (w2 & w3 & _ & H).
  apply bind_Val_inv in H as (z' & w4 & Hz & H).
  injection H as _ <- _ _.
  revert Hz. apply foldM_invariant; [| constructor].
  intros b [[root dirs] names] v r v' Hb. revert b v r v' Hb.
  apply foldM_invariant. intros b filename v r v' Hb Hw.
  destruct (str_endswith ".json" filename) eqn:Hjson; cbn [negb] in Hw.
  - injection Hw as <- _. exact Hb.
  - unfold zip_write, bind, gets in Hw.
    destruct (fs v !! os_path_join (cwd v) filename) as [[c |] |]; try discriminate;
      injection Hw as <- _; apply Forall_app; split; try exact Hb;
      repeat constructor; cbn [fst].
    + exact Hjson.
    + apply directory_entry_is_not_json.
Qed.

(** *** What the handlers leave of the world *)

Section Preserving.

Variable R : World -> World -> Prop.
Hypothesis R_refl : forall w, R w w.
Hypothesis R_trans : forall w1 w2 w3, R w1 w2 -> R w2 w3 -> R w1 w3.

Lemma preserves_ret {A} (a : A) : preserves R (ret a).
Proof. intros w. apply R_refl. Qed.

Lemma preserves_raise {A} e : preserves R (@raise A e).
Proof. intros w. apply R_refl. Qed.

Lemma preserves_abort {A} code d : preserves R (@abort A code d).
Proof. intros w. apply R_refl. Qed.

Lemma preserves_gets {A} (f : World -> A) : preserves R (gets f).
Proof. intros w. apply R_refl. Qed.

Lemma preserves_modify f : (forall w, R w (f w)) -> preserves R (modify f).
Proof. intros Hf w. apply Hf. Qed.

Lemma preserves_bind {A B} (c : M A) (k : A -> M B) :
  preserves R c -> (forall a, preserves R (k a)) -> preserves R (bind c k).
Proof.
  intros Hc Hk w. unfold bind. specialize (Hc w).
  destruct (c w) as [[a | code d | e] w1]; cbn [snd] in *; try exact Hc.
  apply R_trans with w1; [exact Hc | apply Hk].
Qed.

Lemma preserves_when b (c : M unit) : preserves R c -> preserves R (when b c).
Proof. intros Hc. destruct b; [exact Hc | apply preserves_ret]. Qed.

Lemma preserves_catch {A} (c : M A) handles (h : M A) :
  preserves R c -> preserves R h -> preserves R (catch c handles h).
Proof.
  intros Hc Hh w. unfold catch. specialize (Hc w).
  destruct (c w) as [[a | code d | e] w1]; cbn [snd] in *; try exact Hc.
  destruct (handles e); cbn [snd]; [| exact Hc].
  apply R_trans with w1; [exact Hc | apply Hh].
Qed.

Lemma preserves_foldM {A B} (f : B -> A -> M B) (l : list A) :
  (forall b a, preserves R (f b a)) -> forall b, preserves R (foldM f l b).
Proof.
  intros Hf. induction l as [| a l IH]; intros b; cbn [foldM].
  - apply preserves_ret.
  - apply preserves_bind; [apply Hf | exact IH].
Qed.

Lemma preserves_is_valid content : preserves R (is_valid E content).
Proof. intros w. rewrite is_valid_validity. apply R_refl. Qed.

End Preserving.

Lemma only_reads_refl w : only_reads w w.
Proof. repeat split. exists []. now rewrite app_nil_r. Qed.

Lemma only_reads_trans w1 w2 w3 : only_reads w1 w2 -> only_reads w2 w3 -> only_reads w1 w3.
Proof.
  intros (Hf & Hd & Hc & Ht & Hu & l1 & H1) (Hf' & Hd' & Hc' & Ht' & Hu' & l2 & H2).
  repeat split; try congruence.
  exists (l1 ++ l2). now rewrite H2, H1, app_assoc.
Qed.

Lemma only_reads_log c w : only_reads w (log c w).
Proof. repeat split. now exists [c]. Qed.

Lemma registry_grows_refl w : registry_grows w w.
Proof. exists []. split; [now rewrite app_nil_r | constructor]. Qed.

Lemma registry_grows_trans w1 w2 w3 :
  registry_grows w1 w2 -> registry_grows w2 w3 -> registry_grows w1 w3.
Proof.
  intros (l1 & H1 & F1) (l2 & H2 & F2). exists (l1 ++ l2). split.
  - now rewrite H2, H1, app_assoc.
  - apply Forall_app. now split.
Qed.

Lemma same_store_refl w : same_store w w.
Proof. now split. Qed.

Lemma same_store_trans w1 w2 w3 : same_store w1 w2 -> same_store w2 w3 -> same_store w1 w3.
Proof. intros [H1 H2] [H3 H4]. split; congruence. Qed.

(** One step of a proof that a computation preserves a relation, given the
    proofs that the relation is reflexive and transitive. *)
Ltac preserve_step Hrefl Htrans :=
  first
    [ apply (preserves_ret _ Hrefl)
    | apply (preserves_raise _ Hrefl)
    | apply (preserves_abort _ Hrefl)
    | apply (preserves_gets _ Hrefl)
    | apply (preserves_is_valid _ Hrefl)
    | apply (preserves_when _ Hrefl)
    | apply (preserves_bind _ Htrans); [| intros ?]
    | apply (preserves_catch _ Htrans)
    | apply (preserves_foldM _ Hrefl Htrans); intros ? ?
    | match goal with
      | |- preserves _ (match ?x with _ => _ end) => destruct x
      | |- preserves _ (if ?b then _ else _) => destruct b
      | |- preserves _ (let _ := _ in _) => cbv zeta
      end ].

Lemma unchanged_refl (w : World) : unchanged w w.
Proof. reflexivity. Qed.

Lemma unchanged_trans (w1 w2 w3 : World) :
  unchanged w1 w2 -> unchanged w2 w3 -> unchanged w1 w3.
Proof. unfold unchanged. congruence. Qed.

Ltac query_unfold :=
  first [ avoid_unfold | progress unfold require_configuration, os_path_exists, is_binary ].

Ltac reads :=
  repeat first
    [ preserve_step only_reads_refl only_reads_trans
    | apply preserves_modify; intros ?; apply only_reads_log
    | query_unfold ].

Ltac untouched :=
  repeat first
    [ preserve_step unchanged_refl unchanged_trans
    | query_unfold ].

(** The queries read: whatever they are asked and however they end, the
    metadata query and the result queries leave the files, the registry, the
    working directory, the clock and the uuid source as they are and only add
    to the record of the reader calls; the observations query and the file
    endpoint leave the world as it is. *)
Theorem queries_change_nothing q id name w :
  only_reads w (snd (run_query E q id w))
  /\ snd (get_results_observations E id w) = w
  /\ snd (get_file E id name w) = w.
Proof.
  split; [| split].
  - revert w. change (preserves only_reads (run_query E q id)).
    destruct q; cbn [run_query];
      unfold calculation_details, get_results_head_drawdown, get_results_time_series,
        get_results_budget_by_totim, get_results_budget_by_idx, get_results_concentration;
      cbv zeta; reads.
  - revert w. change (preserves unchanged (get_results_observations E id)).
    unfold get_results_observations. cbv zeta. untouched.
  - revert w. change (preserves unchanged (get_file E id name)).
    unfold get_file. cbv zeta. untouched.
Qed.

(** *** The registry *)

Lemma registry_grows_same_db w w' : db w' = db w -> registry_grows w w'.
Proof. intros H. exists []. split; [now rewrite app_nil_r | constructor]. Qed.

Lemma new_uuid_grows : preserves registry_grows (new_uuid E).
Proof. intros w. now apply registry_grows_same_db. Qed.

Lemma insert_grows id : preserves registry_grows (insert_new_calculation E id).
Proof.
  intros w. rewrite insert_new_calculation_run. cbn [snd db set_db tick].
  eexists. split; [reflexivity |]. repeat constructor.
Qed.

Ltac grows :=
  repeat first
    [ apply new_uuid_grows
    | apply insert_grows
    | preserve_step registry_grows_refl registry_grows_trans
    | apply preserves_modify; intros ?; apply registry_grows_same_db; reflexivity
    | progress unfold os_path_exists, os_makedirs, write_json, write_file, read_json,
        read_bytes, os_remove, shutil_rmtree, read_text, py_get, as_str ].

(** The gateway only appends to the registry: whatever the request and
    however the submission ends, the records that were there stay, in their
    order and unaltered, and every record that is added is Queued, with no
    message. *)
Theorem registry_only_grows req w :
  exists new, db (snd (upload_file E req w)) = db w ++ new /\ Forall is_queued new.
Proof.
  revert w. change (preserves registry_grows (upload_file E req)).
  unfold upload_file, upload_multipart, upload_inline. grows.
Qed.

Lemma find_app_None {A} (f : A -> bool) (l l' : list A) :
  List.find f l = None -> List.find f (l ++ l') = List.find f l'.
Proof.
  induction l as [| a l IH]; [reflexivity |]. cbn. destruct (f a); [discriminate | exact IH].
Qed.

Lemma find_app_Some {A} (f : A -> bool) (l l' : list A) a :
  List.find f l = Some a -> List.find f (l ++ l') = Some a.
Proof.
  induction l as [| b l IH]; [discriminate |]. cbn. destruct (f b); [tauto | exact IH].
Qed.

(** Inserting and looking up, for ids that the table keeps as text (an id
    that reads as a number is stored and compared as the number, and two
    such ids that differ as strings can be one id to the table).  After
    [insert_new_calculation id], the lookup of an id that had no record gives
    the new record: Queued, without message, stamped by the two readings of
    the clock; the lookup of another id is as before, and the files are not
    touched. *)
Theorem insert_then_lookup id id' w :
  stored_as_text id ->
  let w' := snd (insert_new_calculation E id w) in
  (fst (get_calculation_by_id id w) = Val None ->
     fst (get_calculation_by_id id w')
     = Val (Some {| calculation_id := id; state := 0; message := None;
                    created_at := clock E (ticks w);
                    updated_at := clock E (S (ticks w)) |}))
  /\ (stored_as_text id' -> id' <> id ->
      fst (get_calculation_by_id id' w') = fst (get_calculation_by_id id' w))
  /\ fs w' = fs w.
Proof.
  intros _ w'. subst w'. rewrite insert_new_calculation_run.
  unfold get_calculation_by_id, gets. cbn [fst snd db fs set_db tick].
  split; [| split].
  - intros H. injection H as H. rewrite (find_app_None _ _ _ H). cbn.
    now rewrite String.eqb_refl.
  - intros _ Hne. f_equal.
    destruct (List.find (fun r => String.eqb (calculation_id r) id') (db w)) as [r |] eqn:H.
    + now rewrite (find_app_Some _ _ _ _ H).
    + rewrite (find_app_None _ _ _ H). cbn.
      apply String.eqb_neq in Hne. rewrite String.eqb_sym in Hne. now rewrite Hne.
  - reflexivity.
Qed.

Lemma count_app (st : Z) (l l' : list CalculationRecord) :
  Z.of_nat (length (List.filter (fun r => Z.eqb (state r) st) (l ++ l')))
  = Z.of_nat (length (List.filter (fun r => Z.eqb (state r) st) l))
    + Z.of_nat (length (List.filter (fun r => Z.eqb (state r) st) l')).
Proof. rewrite List.filter_app, length_app. lia. Qed.

(** Counting by state.  An insertion raises the count of the Queued records
    by one and leaves the count of every other state; and the four counts
    that the metrics report are counts of disjoint sets of records, so their
    sum never exceeds the number of the records. *)
Theorem counts_follow_insertions id st w :
  (exists n,
     get_number_of_calculations st w = (Val n, w)
     /\ fst (get_number_of_calculations st (snd (insert_new_calculation E id w)))
        = Val (if Z.eqb st 0 then n + 1 else n))
  /\ exists n_0 n_100 n_200 n_400,
       fst (metrics_gauges w)
       = Val [("number_of_calculated_models_0", n_0);
              ("number_of_calculated_models_100", n_100);
              ("number_of_calculated_models_200", n_200);
              ("number_of_calculated_models_400", n_400)]
       /\ 0 <= n_0 /\ 0 <= n_100 /\ 0 <= n_200 /\ 0 <= n_400
       /\ n_0 + n_100 + n_200 + n_400 <= Z.of_nat (length (db w))
       /\ snd (metrics_gauges w) = w.
Proof.
  split.
  - eexists. split; [reflexivity |].
    rewrite insert_new_calculation_run. unfold get_number_of_calculations, gets.
    cbn [fst snd db set_db tick]. rewrite count_app. cbn [List.filter state].
    rewrite Z.eqb_sym. destruct (Z.eqb st 0); cbn [length]; f_equal; lia.
  - unfold metrics_gauges, get_number_of_calculations, bind, gets, ret.
    cbn [fst snd]. eexists _, _, _, _. split; [reflexivity |].
    repeat split; try apply Nat2Z.is_nonneg.
    induction (db w) as [| r l IH]; [cbn; lia |].
    cbn [List.filter length].
    destruct (Z.eqb_spec (state r) 0) as [H0 | H0];
      destruct (Z.eqb_spec (state r) 100) as [H1 | H1];
      destruct (Z.eqb_spec (state r) 200) as [H2 | H2];
      destruct (Z.eqb_spec (state r) 400) as [H4 | H4];
      cbn [length]; lia.
Qed.

(** *** More of the gateway *)

Lemma write_file_Val (p : path) data w u w' :
  write_file p data w = (Val u, w') ->
  fs w' = <[p := File data]> (fs w) /\ db w' = db w.
Proof.
  unfold write_file, bind, gets. intros H.
  destruct (fs w !! p) as [[c |] |]; try discriminate;
    destruct (is_dir (fs w) (parent p)); try (destruct (exists_in _ _); discriminate);
    injection H as _ <-; now split.
Qed.

Lemma as_str_Val o w s w' : as_str o w = (Val s, w') -> o = JStr s /\ w' = w.
Proof. destruct o; try discriminate. intros H. injection H as <- <-. now split. Qed.

Lemma created_has_configuration id content w u w' :
  (os_makedirs (target_directory_of id) ;;;
   write_json E (modflow_file_of id) content ;;;
   insert_new_calculation E id) w = (Val u, w') ->
  fs w' !! modflow_file_of id = Some (File (json_dumps E content)).
Proof.
  intros H. apply bind_Val_inv in H as (_ & w1 & _ & H).
  apply bind_Val_inv in H as (u2 & w2 & Hw & H).
  apply write_file_Val in Hw as [Hfs _].
  rewrite insert_new_calculation_run in H. injection H as _ <-.
  cbn [fs set_db tick]. rewrite Hfs. apply lookup_insert_eq.
Qed.

Lemma inline_Val_inv payload w r w' :
  upload_inline E (inline_request payload) w = (Val r, w') ->
  exists id, r = Body (json_dumps E (identity id))
             /\ exists_in (fs w') (modflow_file_of id) = true.
Proof.
  intros H. unfold upload_inline in H. cbn [body inline_request] in H.
  destruct (json_loads E payload) as [content |]; [| discriminate].
  rewrite (bind_Val _ _ w content w) in H by reflexivity.
  apply bind_Val_inv in H as (valid & w1 & _ & H).
  apply bind_Val_inv in H as (_ & w2 & _ & H).
  apply bind_Val_inv in H as (o & w3 & _ & H).
  apply bind_Val_inv in H as (id & w4 & Ho & H).
  apply as_str_Val in Ho as [-> ->].
  apply bind_Val_inv in H as (ex & w5 & _ & H).
  apply bind_Val_inv in H as (_ & w6 & _ & H).
  apply bind_Val_inv in H as (ex' & w7 & Hex & H).
  apply bind_Val_inv in H as (u & w8 & Hc & H).
  injection H as <- <-. exists id. split; [reflexivity |].
  unfold os_path_exists, gets in Hex. injection Hex as <- <-.
  destruct (exists_in (fs w6) (modflow_file_of id)) eqn:He; cbn [negb when] in Hc.
  - injection Hc as _ <-. exact He.
  - apply created_has_configuration in Hc. now apply exists_in_true in Hc.
Qed.

Lemma multipart_Val_inv filename payload w r w' :
  upload_multipart E (multipart_request filename payload) w = (Val r, w') ->
  exists id, r = RedirectTo ("/" +:+ id)
             /\ exists_in (fs w') (modflow_file_of id) = true.
Proof.
  intros H. unfold upload_multipart in H.
  cbn [files multipart_request assoc String.eqb Ascii.eqb Bool.eqb] in H.
  destruct (String.eqb filename ""); [discriminate |].
  apply bind_Val_inv in H as (u & w1 & _ & H).
  apply bind_Val_inv in H as (folder & w1' & _ & H).
  apply bind_Val_inv in H as (_ & w2 & _ & H).
  apply bind_Val_inv in H as (content & w3 & _ & H).
  apply bind_Val_inv in H as (valid & w4 & _ & H).
  apply bind_Val_inv in H as (_ & w5 & _ & H).
  apply bind_Val_inv in H as (o & w6 & _ & H).
  apply bind_Val_inv in H as (id & w7 & Ho & H).
  apply as_str_Val in Ho as [-> ->].
  apply bind_Val_inv in H as (ex & w8 & _ & H).
  apply bind_Val_inv in H as (_ & w9 & _ & H).
  apply bind_Val_inv in H as (_ & w10 & _ & H).
  apply bind_Val_inv in H as (u2 & w11 & Hw & H).
  apply write_file_Val in Hw as [Hfs _].
  apply bind_Val_inv in H as (u3 & w12 & Hi & H).
  rewrite insert_new_calculation_run in Hi. inversion Hi as [[Hu Hw12]].
  injection H as <- <-. exists id. split; [reflexivity |].
  rewrite <- Hw12. cbn [fs set_db tick]. rewrite Hfs. unfold exists_in. now rewrite lookup_insert_eq.
Qed.

(** An accepted submission can be queried.  Whenever a submission is
    answered (the identity for the inline delivery, the redirect for the
    upload), the configuration file of the id that the answer names exists,
    so none of the queries on that id answers that the calculation is not
    found. *)
Theorem accepted_submission_is_found filename payload w r w' :
  (upload_file E (inline_request payload) w = (Val r, w') ->
   exists id, r = Body (json_dumps E (identity id))
              /\ exists_in (fs w') (modflow_file_of id) = true
              /\ forall q code,
                   fst (run_query E q id w') <> Abort code (calculation_not_found id))
  /\ (upload_file E (multipart_request filename payload) w = (Val r, w') ->
      exists id, r = RedirectTo ("/" +:+ id)
                 /\ exists_in (fs w') (modflow_file_of id) = true
                 /\ forall q code,
                      fst (run_query E q id w') <> Abort code (calculation_not_found id)).
Proof.
  split; intros H.
  - rewrite upload_file_inline in H. apply inline_Val_inv in H as (id & Hr & Hex).
    exists id. repeat split; try assumption. intros q code.
    unfold exists_in in Hex.
    destruct (fs w' !! modflow_file_of id) as [n |] eqn:Hn; [| discriminate].
    now apply query_found with n.
  - rewrite upload_file_multipart in H. apply multipart_Val_inv in H as (id & Hr & Hex).
    exists id. repeat split; try assumption. intros q code.
    unfold exists_in in Hex.
    destruct (fs w' !! modflow_file_of id) as [n |] eqn:Hn; [| discriminate].
    now apply query_found with n.
Qed.

Lemma submitted_lookup_other id content w (p : path) :
  p <> modflow_file_of id -> p <> MODFLOW_FOLDER -> p <> target_directory_of id ->
  fs (submitted E id content w) !! p = fs w !! p.
Proof. intros H1 H2 H3. cbn [fs submitted]. now rewrite !lookup_insert_ne by congruence. Qed.

Lemma submitted_folder id content w : fs (submitted E id content w) !! MODFLOW_FOLDER = Some Dir.
Proof. cbn [fs submitted]. rewrite lookup_insert_ne by paths_ne. apply lookup_insert_eq. Qed.

Lemma submitted_directory id content w :
  fs (submitted E id content w) !! target_directory_of id = Some Dir.
Proof. cbn [fs submitted]. rewrite !lookup_insert_ne by paths_ne. apply lookup_insert_eq. Qed.

Lemma submitted_configuration id content w :
  fs (submitted E id content w) !! modflow_file_of id = Some (File (json_dumps E content)).
Proof. cbn [fs submitted]. apply lookup_insert_eq. Qed.

(** Submitting twice before the run.  A first submission of a new, plain id
    makes the job; the same submission again, while the worker has written
    no marker yet, raises [FileNotFoundError] and leaves the job without its
    directory and the registry with the one record; the same submission a
    third time makes the job again and appends a second record. *)
Theorem resubmit_before_the_run payload content id w :
  json_loads E payload = Some content ->
  validity E content = Val true ->
  names_id content id ->
  plain_component id ->
  fs w !! target_directory_of id = None ->
  fs w !! modflow_file_of id = None ->
  fs w !! state_log_of id = None ->
  folder_free (fs w) ->
  let R1 := upload_file E (inline_request payload) w in
  let R2 := upload_file E (inline_request payload) (snd R1) in
  let R3 := upload_file E (inline_request payload) (snd R2) in
  fst R1 = Val (Body (json_dumps E (identity id)))
  /\ fst R2 = Raise ExFileNotFound
  /\ fs (snd R2) !! target_directory_of id = None
  /\ fs (snd R2) !! modflow_file_of id = None
  /\ length (db (snd R2)) = S (length (db w))
  /\ fst R3 = Val (Body (json_dumps E (identity id)))
  /\ fs (snd R3) !! modflow_file_of id = Some (File (json_dumps E content))
  /\ length (db (snd R3)) = S (S (length (db w))).
Proof.
  intros Hl Hv Hid _ Hdir Hcfg Hlog Hm R1 R2 R3. subst R1 R2 R3.
  rewrite !upload_file_inline.
  rewrite (inline_fresh _ _ _ _ Hl Hv Hid Hdir Hcfg Hm). cbn [fst snd].
  set (w1 := submitted E id content w).
  assert (fs w1 !! state_log_of id = None) as Hlog1
    by (unfold w1; rewrite submitted_lookup_other by paths_ne; exact Hlog).
  assert (fs w1 !! modflow_file_of id = Some (File (json_dumps E content))) as Hcfg1
    by apply submitted_configuration.
  rewrite (inline_abandoned _ _ _ _ _ Hl Hv Hid Hcfg1 Hlog1).
  cbn [fst snd].
  set (w2 := set_fs (purge (target_directory_of id) (fs w1)) w1).
  assert (fs w2 !! target_directory_of id = None) as Hdir2
    by (apply purge_below; [apply submitted_directory | reflexivity]).
  assert (fs w2 !! modflow_file_of id = None) as Hcfg2
    by (apply purge_below; [apply submitted_directory | now exists ["configuration.json"]]).
  assert (folder_free (fs w2)) as Hm2.
  { right. unfold w2. cbn [fs set_fs]. rewrite purge_outside; [apply submitted_folder |].
    intros [k Hk]. discriminate Hk. }
  rewrite (inline_fresh _ _ _ _ Hl Hv Hid Hdir2 Hcfg2 Hm2). cbn [fst snd].
  repeat split; try assumption.
  - unfold w2, w1. cbn [db set_fs submitted]. rewrite length_app. cbn. lia.
  - apply submitted_configuration.
  - unfold w2, w1. cbn [db set_fs submitted]. rewrite !length_app. cbn. lia.
Qed.

(** A resubmission after a failed run appends a record and looks up the old
    one.  [get_calculation_by_id] takes the first row of the id, in the order
    of insertion: after the resubmission it still gives the record that was
    there, with the state the failed run left in it, and not the fresh
    Queued record. *)
Theorem resubmission_keeps_first_record payload content id w n c st r0 :
  json_loads E payload = Some content ->
  validity E content = Val true ->
  names_id content id ->
  fs w !! target_directory_of id = Some Dir ->
  fs w !! modflow_file_of id = Some n ->
  fs w !! state_log_of id = Some (File c) ->
  decode E c = Some st ->
  st <> "200" ->
  folder_free (fs w) ->
  fst (get_calculation_by_id id w) = Val (Some r0) ->
  let w' := snd (upload_file E (inline_request payload) w) in
  fst (get_calculation_by_id id w') = Val (Some r0)
  /\ exists t1 t2,
       db w' = db w ++ [{| calculation_id := id; state := 0; message := None;
                           created_at := t1; updated_at := t2 |}].
Proof.
  intros Hl Hv Hid Hdir Hcfg Hlog Hdec Hst Hm Hr w'. subst w'.
  rewrite upload_file_inline,
    (inline_failed _ _ _ _ _ _ _ Hl Hv Hid Hdir Hcfg Hlog Hdec Hst Hm).
  unfold get_calculation_by_id, gets in *. cbn [fst snd db submitted set_fs] in *.
  injection Hr as Hr. split.
  - now rewrite (find_app_Some _ _ _ _ Hr).
  - now eexists _, _.
Qed.

Lemma multipart_unparsable filename payload w :
  filename <> "" ->
  fs w !! abspath UPLOAD_FOLDER w = Some Dir ->
  fs w !! temp_file_of E w = None ->
  json_loads_text E payload = None ->
  upload_multipart E (multipart_request filename payload) w
  = (Raise ExValue, saved E payload w).
Proof.
  intros Hname Hup Htmp Hl. unfold upload_multipart.
  cbn [files multipart_request assoc String.eqb Ascii.eqb Bool.eqb].
  apply String.eqb_neq in Hname. rewrite Hname.
  erewrite bind_Val by reflexivity. erewrite bind_Val by reflexivity.
  change (os_path_join (abspath UPLOAD_FOLDER (draw w)) (uuid4 E (uuids w) +:+ ".json"))
    with (temp_file_of E w).
  erewrite bind_Val
    by (apply write_file_in;
        [exact Htmp | rewrite temp_parent; apply upload_folder_below_root
        | rewrite temp_parent; exact Hup]).
  erewrite bind_Raise; [reflexivity |].
  unfold read_json, read_bytes, bind, gets. cbn [fs set_fs draw].
  rewrite lookup_insert_eq. cbn. now rewrite Hl.
Qed.

(** The saved upload.  The file of an upload is saved under a fresh name in
    the upload folder of the working directory before anything is checked,
    and it is removed in one case only: when the validation answers that the
    document is invalid.  When the upload does not parse, when the validation
    raises, when the id is taken and when the job is created, the saved file
    stays.  Where the working directory has no upload folder nothing is
    saved: the upload raises [FileNotFoundError]. *)
Theorem saved_upload_stays filename payload w :
  filename <> "" ->
  fs w !! temp_file_of E w = None ->
  let U := upload_file E (multipart_request filename payload) w in
  let temp := fs (snd U) !! temp_file_of E w in
  (fs w !! abspath UPLOAD_FOLDER w = None -> fst U = Raise ExFileNotFound /\ temp = None)
  /\ (fs w !! abspath UPLOAD_FOLDER w = Some Dir ->
      (json_loads_text E payload = None ->
         fst U = Raise ExValue /\ temp = Some (File payload))
      /\ forall content, json_loads_text E payload = Some content ->
           (validity E content = Val false -> temp = None)
           /\ (forall e, validity E content = Raise e -> temp = Some (File payload))
           /\ (validity E content = Val true ->
               forall id, names_id content id -> plain_component id ->
                 (forall n, fs w !! modflow_file_of id = Some n -> temp = Some (File payload))
                 /\ (fs w !! target_directory_of id = None ->
                     fs w !! modflow_file_of id = None ->
                     folder_free (fs w) -> temp = Some (File payload)))).
Proof.
  intros Hname Htmp U temp. subst U temp. rewrite upload_file_multipart.
  assert (forall w0, fs (saved E payload w0) !! temp_file_of E w0 = Some (File payload))
    as Hsaved by (intros w0; cbn [fs saved set_fs]; apply lookup_insert_eq).
  split.
  - intros Hup. rewrite (multipart_unsaved _ _ _ Hname Hup Htmp). now split.
  - intros Hup. split.
    + intros Hl. rewrite (multipart_unparsable _ _ _ Hname Hup Htmp Hl). now split.
    + intros content Hl. split; [| split].
      * intros Hv. rewrite (multipart_invalid _ _ _ _ Hname Hup Htmp Hl Hv). exact Htmp.
      * intros e Hv. rewrite (multipart_error _ _ _ _ _ Hname Hup Htmp Hl Hv). apply Hsaved.
      * intros Hv id Hid _. split.
        -- intros n Hcfg.
           rewrite (multipart_existing _ _ _ _ _ _ Hname Hup Htmp Hl Hv Hid Hcfg).
           apply Hsaved.
        -- intros Hdir Hcfg Hm.
           rewrite (multipart_fresh _ _ _ _ _ Hname Hup Htmp Hl Hv Hid Hdir Hcfg Hm).
           cbn [snd]. rewrite submitted_lookup_other; [apply Hsaved | | |].
           ++ now apply temp_ne_configuration.
           ++ apply temp_ne_folder.
           ++ apply temp_ne_directory.
Qed.

(** A valid document without an id.  The validation does not look at
    [calculation_id]: a document that passes it and has no string there is
    not rejected as a client error; joining the folder with it raises
    [TypeError], before any directory or record is made. *)
Theorem valid_document_without_id payload content w :
  json_loads E payload = Some content ->
  validity E content = Val true ->
  (forall id, ~ names_id content id) ->
  upload_file E (inline_request payload) w = (Raise ExType, w).
Proof.
  intros Hl Hv Hno. rewrite upload_file_inline. unfold upload_inline.
  cbn [body inline_request]. rewrite Hl.
  erewrite bind_Val by reflexivity.
  erewrite bind_Val by (apply is_valid_run; exact Hv).
  cbn [negb when]. erewrite bind_Val by reflexivity.
  destruct content as [| | | | | | d]; try discriminate Hv.
  unfold py_get. erewrite bind_Val by reflexivity.
  erewrite bind_Raise; [reflexivity |].
  destruct (assoc "calculation_id" d) as [o |] eqn:Ho; [| reflexivity].
  destruct o; try reflexivity.
  destruct (Hno s). now exists d.
Qed.

(** *** More of the queries *)

Lemma eqb_nan y : PrimFloat.eqb nan y = false.
Proof. rewrite FloatAxioms.eqb_spec. reflexivity. Qed.

Lemma float_in_nan l : float_in nan l = false.
Proof.
  unfold float_in. induction l as [| y l IH]; [reflexivity |].
  cbn [existsb]. now rewrite eqb_nan, IH.
Qed.

(** A time that is not a number.  When the requested time parses to NaN, no
    time of the reader equals it, not even a NaN: the layer-slice and the
    budget-at-time queries answer the 404 that lists the reader's times, and
    no array is read. *)
Theorem nan_time_is_never_found id w n t k layer_s layer totim_s :
  fs w !! modflow_file_of id = Some n ->
  kind_of_type t = Some k ->
  py_int E layer_s = Some layer ->
  py_float E totim_s = Some nan ->
  get_results_head_drawdown E id t layer_s totim_s w
  = (Abort 404 (totim_not_available E nan
                  (times (reader_of E k (fs w) (target_directory_of id)))),
     log (RdTimes k) w)
  /\ get_results_budget_by_totim E id totim_s w
     = (Abort 404 (totim_not_available E nan
                     (times (reader_of E KBudget (fs w) (target_directory_of id)))),
        log (RdTimes KBudget) w).
Proof.
  intros Hcfg Hk Hl Hf. split.
  - rewrite (head_drawdown_eq _ _ _ _ _ _ _ _ _ Hcfg Hf Hl Hk), layer_slice_eq.
    cbv zeta. now rewrite float_in_nan.
  - rewrite (budget_by_totim_eq _ _ _ _ _ Hcfg Hf). cbv zeta. now rewrite float_in_nan.
Qed.

(** The selectors are parsed before the type is looked at.  On an existing
    job, a layer-slice query whose time or layer does not parse, and a
    time-series query whose layer, row or column does not parse, raises
    [ValueError] whatever the type is; when the numbers parse, a type
    other than head and drawdown is answered with the 404 that names the
    permitted types.  In both cases no reader is asked anything. *)
Theorem selectors_parse_before_type id t layer_s row_s col_s totim_s w n :
  fs w !! modflow_file_of id = Some n ->
  (py_float E totim_s = None ->
     get_results_head_drawdown E id t layer_s totim_s w = (Raise ExValue, w))
  /\ (py_int E layer_s = None ->
        (forall totim, py_float E totim_s = Some totim ->
           get_results_head_drawdown E id t layer_s totim_s w = (Raise ExValue, w))
        /\ get_results_time_series E id t layer_s row_s col_s w = (Raise ExValue, w))
  /\ (kind_of_type t = None ->
        (forall totim layer, py_float E totim_s = Some totim -> py_int E layer_s = Some layer ->
           get_results_head_drawdown E id t layer_s totim_s w
           = (Abort 404 (type_not_permitted t), w))
        /\ (forall layer row col,
              py_int E layer_s = Some layer -> py_int E row_s = Some row ->
              py_int E col_s = Some col ->
              get_results_time_series E id t layer_s row_s col_s w
              = (Abort 404 (type_not_permitted t), w)))
  /\ (forall layer, py_int E layer_s = Some layer ->
        (py_int E row_s = None ->
           get_results_time_series E id t layer_s row_s col_s w = (Raise ExValue, w))
        /\ (forall row, py_int E row_s = Some row -> py_int E col_s = None ->
              get_results_time_series E id t layer_s row_s col_s w = (Raise ExValue, w))).
Proof.
  intros Hcfg.
  assert (kind_of_type t = None -> str_in t permitted_types = false) as Htype.
  { unfold kind_of_type, str_in, permitted_types. cbn [existsb].
    destruct (String.eqb t "head"); [discriminate |].
    now destruct (String.eqb t "drawdown"). }
  split; [| split; [| split]].
  - intros Hf. unfold get_results_head_drawdown. cbv zeta.
    rewrite (guard_passes _ _ _ _ Hcfg). unfold to_float. now rewrite Hf.
  - intros Hl. split.
    + intros totim Hf. unfold get_results_head_drawdown. cbv zeta.
      rewrite (guard_passes _ _ _ _ Hcfg). unfold to_float, to_int. rewrite Hf, Hl.
      reflexivity.
    + unfold get_results_time_series. cbv zeta.
      rewrite (guard_passes _ _ _ _ Hcfg). unfold to_int. now rewrite Hl.
  - intros Hk. specialize (Htype Hk). split.
    + intros totim layer Hf Hl. unfold get_results_head_drawdown. cbv zeta.
      rewrite (guard_passes _ _ _ _ Hcfg). unfold to_float, to_int. rewrite Hf, Hl.
      do 2 (erewrite bind_Val by reflexivity). now rewrite Htype.
    + intros layer row col Hl Hr Hc. unfold get_results_time_series. cbv zeta.
      rewrite (guard_passes _ _ _ _ Hcfg). unfold to_int. rewrite Hl, Hr, Hc.
      do 3 (erewrite bind_Val by reflexivity). now rewrite Htype.
  - intros layer Hl. split.
    + intros Hr. unfold get_results_time_series. cbv zeta.
      rewrite (guard_passes _ _ _ _ Hcfg). unfold to_int. rewrite Hl, Hr. reflexivity.
    + intros row Hr Hc. unfold get_results_time_series. cbv zeta.
      rewrite (guard_passes _ _ _ _ Hcfg). unfold to_int. rewrite Hl, Hr, Hc. reflexivity.
Qed.


(** [valid_json_file] and [read_json] agree: on a file that is there, the
    first answers [True] exactly when the second returns the document, and
    answers [False], without raising, exactly when the second raises
    [ValueError]; neither changes the world. *)
Theorem valid_json_file_agrees_with_read_json (file : path) c w :
  fs w !! file = Some (File c) ->
  (valid_json_file E file w = (Val true, w)
   <-> exists j, read_json E file w = (Val j, w))
  /\ (valid_json_file E file w = (Val false, w)
      <-> read_json E file w = (Raise ExValue, w)).
Proof.
  intros H. unfold valid_json_file, read_json, read_bytes, bind, gets, ret, raise.
  rewrite H. destruct (json_loads_text E c) as [j |]; split; split;
    try discriminate; try reflexivity; try (intros [j' Hj]; discriminate).
  intros _. now exists j.
Qed.

(** The dispatch of a submission.  A POST is taken as an upload whenever its
    content type contains [multipart/form-data], also when it contains
    [application/json] as well; an upload without the part [file], or with
    an empty file name, is answered with a 415.  A POST without a content
    type, or with one that names neither form, is no client error: the view
    raises [TypeError].  None of these changes the world. *)
Theorem submission_dispatch req ct w :
  method req = "POST" ->
  (content_type req = None -> upload_file E req w = (Raise ExType, w))
  /\ (content_type req = Some ct ->
      (str_contains "multipart/form-data" ct = true ->
         upload_file E req w = upload_multipart E req w
         /\ (assoc "file" (files req) = None ->
             upload_file E req w = (Abort 415 (JStr "No file uploaded"), w))
         /\ (forall data, assoc "file" (files req) = Some ("", data) ->
               upload_file E req w = (Abort 415 (JStr "No selected file"), w)))
      /\ (str_contains "multipart/form-data" ct = false ->
          str_contains "application/json" ct = true ->
            upload_file E req w = upload_inline E req w
            /\ (json_loads E (body req) = None ->
                exists d, upload_file E req w = (Abort 400 d, w)))
      /\ (str_contains "multipart/form-data" ct = false ->
          str_contains "application/json" ct = false ->
            upload_file E req w = (Raise ExType, w))).
Proof.
  intros Hm. unfold upload_file. rewrite Hm. cbn [String.eqb Ascii.eqb Bool.eqb].
  split.
  - now intros ->.
  - intros ->. split; [| split].
    + intros ->. split; [reflexivity |]. unfold upload_multipart. split.
      * now intros ->.
      * now intros data ->.
    + intros -> ->. split; [reflexivity |]. unfold upload_inline.
      intros ->. eexists. reflexivity.
    + now intros -> ->.
Qed.

(** *** More of the archive *)

Lemma os_chdir_to_directory (d : path) w :
  fs w !! d = Some Dir -> d <> [] -> os_chdir d w = (Val tt, set_cwd d w).
Proof.
  intros H Hne. unfold os_chdir, bind, gets, is_dir.
  destruct d; [congruence |]. now rewrite H.
Qed.

Lemma is_dir_target (f : gmap path node) id :
  is_dir f (target_directory_of id)
  = match f !! target_directory_of id with Some Dir => true | _ => false end.
Proof. reflexivity. Qed.



Lemma child_name_Some (d p : path) name : child_name d p = Some name -> p = d ++ [name].
Proof.
  unfold child_name. destruct (decide (take (length d) p = d)) as [Ht |]; [| discriminate].
  destruct (drop (length d) p) as [| x [| y l]] eqn:Hd; try discriminate.
  intros H. injection H as <-. rewrite <- (take_drop (length d) p). now rewrite Ht, Hd.
Qed.

Lemma child_name_join (d : path) name : child_name d (d ++ [name]) = Some name.
Proof.
  unfold child_name. rewrite take_app_length, drop_app_length.
  case_decide; [reflexivity | congruence].
Qed.

(** The entries of a directory are what the map holds one step below it. *)
Lemma entries_of_spec (f : gmap path node) (d : path) name n :
  (name, n) ∈ entries_of f d <-> f !! os_path_join d name = Some n.
Proof.
  unfold entries_of, os_path_join. rewrite list_elem_of_omap. split.
  - intros [[p n'] [Hin Hx]]. apply elem_of_map_to_list in Hin.
    destruct (child_name d p) as [name' |] eqn:Hc; [| discriminate].
    cbn in Hx. injection Hx as -> ->. apply child_name_Some in Hc. now subst p.
  - intros H. exists (d ++ [name], n). split.
    + now apply elem_of_map_to_list.
    + now rewrite child_name_join.
Qed.

Lemma omap_all_None {A B} (g : A -> option B) (l : list A) :
  (forall x, x ∈ l -> g x = None) -> omap g l = [].
Proof.
  induction l as [| x l IH]; intros H; [reflexivity |].
  cbn. rewrite (H x) by constructor. apply IH. intros y Hy. apply H. now constructor.
Qed.

Lemma archive_of_entries (d : path) w (es : list (string * node)) z :
  cwd w = d ->
  (forall name n, (name, n) ∈ es -> fs w !! os_path_join d name = Some n) ->
  foldM (fun z filename =>
           if negb (str_endswith ".json" filename) then zip_write z filename else ret z)
        (omap (fun '(name, n) => match n with File _ => Some name | Dir => None end) es)
        z w
  = (Val (z ++ omap archived es), w).
Proof.
  intros Hcwd. revert z. induction es as [| [name n] es IH]; intros z Hes.
  - cbn. now rewrite app_nil_r.
  - assert (forall name' n', (name', n') ∈ es -> fs w !! os_path_join d name' = Some n')
      as Hes' by (intros name' n' Hin; apply Hes; now constructor).
    assert (fs w !! os_path_join d name = Some n) as Hn by (apply Hes; constructor).
    destruct n as [c |].
    + cbn [omap list_omap foldM]. unfold archived at 1. cbn [fst snd].
      destruct (str_endswith ".json" name); cbn [negb].
      * erewrite bind_Val by reflexivity. now apply IH.
      * erewrite bind_Val
          by (unfold zip_write, bind, gets; rewrite Hcwd, Hn; reflexivity).
        rewrite IH by exact Hes'. now rewrite <- app_assoc.
    + cbn [omap list_omap]. unfold archived at 1. cbn [snd]. now apply IH.
Qed.

(** The archive of a job directory without subdirectories.  When the job
    directory holds no directory, the download answers an archive, and a file
    is in it, under its name and with its content, exactly when it is a file
    of the job directory whose name does not end in [.json]. *)
Theorem flat_archive_is_exact id w :
  fs w !! target_directory_of id = Some Dir ->
  (forall p : path, target_directory_of id `prefix_of` p -> p <> target_directory_of id ->
     fs w !! p <> Some Dir) ->
  exists z,
    fst (get_download_model id w)
    = Val (Attachment "application/zip" z ("model-calculation-" +:+ id +:+ ".zip"))
    /\ forall name c,
         (name, c) ∈ z
         <-> (fs w !! os_path_join (target_directory_of id) name = Some (File c)
              /\ str_endswith ".json" name = false).
Proof.
  intros Hdir Hflat.
  exists (omap archived (entries_of (fs w) (target_directory_of id))). split.
  - unfold get_download_model.
    erewrite bind_Val by (apply os_chdir_to_directory; [exact Hdir | discriminate]).
    erewrite bind_Val by reflexivity. cbn [fs cwd set_cwd].
    assert (os_walk (fs w) (target_directory_of id)
            = [(target_directory_of id, dirs_of (fs w) (target_directory_of id),
                files_of (fs w) (target_directory_of id))]) as ->.
    { unfold os_walk. rewrite is_dir_target, Hdir.
      rewrite omap_all_None; [reflexivity |].
      intros [p n] Hin. apply elem_of_map_to_list in Hin.
      destruct n as [c |]; [reflexivity |].
      case_decide as Hp; [| reflexivity].
      destruct Hp as [Hp Hne]. now destruct (Hflat p Hp Hne). }
    cbn [foldM]. unfold files_of.
    erewrite bind_Val.
    2:{ erewrite bind_Val; [reflexivity |].
        apply (archive_of_entries (target_directory_of id)); [reflexivity |].
        intros name n Hin. cbn [fs set_cwd]. now apply entries_of_spec. }
    reflexivity.
  - intros name c. rewrite list_elem_of_omap. split.
    + intros [[name' n] [Hin Ha]]. apply entries_of_spec in Hin.
      unfold archived in Ha. cbn [fst snd] in Ha. destruct n as [c' |]; [| discriminate].
      destruct (str_endswith ".json" name') eqn:Hj; [discriminate |].
      injection Ha as -> ->. now split.
    + intros [Hf Hj]. exists (name, File c). split.
      * now apply entries_of_spec.
      * unfold archived. cbn [fst snd]. now rewrite Hj.
Qed.

(** *** The metadata query *)

Lemma sub_documents_get content mf mt w :
  sub_documents content = Some (mf, mt) ->
  (d <- py_get content "data" ;; py_get d "mf") w = (Val mf, w).
Proof.
  unfold sub_documents. destruct content as [| | | | | | d0]; try discriminate.
  destruct (default JNull (assoc "data" d0)) as [| | | | | | d'] eqn:Hd; try discriminate.
  intros H. injection H as <- _. unfold py_get, bind, ret. now rewrite Hd.
Qed.

Lemma stored_model id w c0 cfg data mt :
  fs w !! modflow_file_of id = Some (File c0) ->
  json_loads_text E c0 = Some cfg ->
  sub_documents cfg = Some (data, mt) ->
  forall k : json -> M Response,
    (require_configuration id ;;;
     cfg <- read_json E (modflow_file_of id) ;;
     d <- py_get cfg "data" ;;
     data <- py_get d "mf" ;;
     k data) w = k data w.
Proof.
  intros Hf Hl Hs k. rewrite (guard_passes _ _ _ _ Hf).
  erewrite bind_Val
    by (unfold read_json, read_bytes, bind, gets; rewrite Hf; cbn; rewrite Hl; reflexivity).
  pose proof (sub_documents_get _ _ _ w Hs) as Hg.
  apply bind_Val_inv in Hg as (d & w1 & H1 & H2).
  assert (w1 = w) as ->.
  { destruct cfg; try discriminate. unfold py_get, ret in H1. now injection H1. }
  erewrite bind_Val by exact H1. erewrite bind_Val by exact H2. reflexivity.
Qed.

(** Submitting and asking.  After the first inline submission of a new,
    plain id, and when the configuration file reads back as the document
    that [json.dump] wrote, the metadata query without a content type
    answers the page of the job with the flow model of the submitted
    document; it changes nothing. *)
Theorem details_after_submission payload content id w mf mt req :
  json_loads E payload = Some content ->
  validity E content = Val true ->
  names_id content id ->
  plain_component id ->
  fs w !! target_directory_of id = None ->
  fs w !! modflow_file_of id = None ->
  folder_free (fs w) ->
  json_loads_text E (json_dumps E content) = Some content ->
  sub_documents content = Some (mf, mt) ->
  content_type req = None ->
  let w' := snd (upload_file E (inline_request payload) w) in
  calculation_details E req id w'
  = (Val (Template "details.html"
            [("id", JStr id); ("data", mf);
             ("path", JStr (path_str (target_directory_of id)))]), w').
Proof.
  intros Hl Hv Hid _ Hdir Hcfg Hm Hrt Hs Hct w'. subst w'.
  rewrite upload_file_inline, (inline_fresh _ _ _ _ Hl Hv Hid Hdir Hcfg Hm). cbn [snd].
  unfold calculation_details. cbv zeta.
  rewrite (stored_model id _ _ content mf mt (submitted_configuration id content w) Hrt Hs).
  now rewrite Hct.
Qed.

(** A computation ends raising when no run of it returns or aborts. *)
Lemma ends_raising_bind {A B} (c : M A) (k : A -> M B) :
  (forall d, avoids d c) ->
  (forall a w, exists e, fst (k a w) = Raise e) ->
  forall w, exists e, fst (bind c k w) = Raise e.
Proof.
  intros Hc Hk w. unfold bind. specialize (Hc JNull w) as Hc0.
  destruct (c w) as [[a | code d | e] w1] eqn:Hcw.
  - apply Hk.
  - destruct (Hc d w code). now rewrite Hcw.
  - now exists e.
Qed.

Lemma read_times_run k folder w :
  read_times E k folder w = (Val (times (reader_of E k (fs w) folder)), log (RdTimes k) w).
Proof. reflexivity. Qed.

(** The metadata as JSON.  With a content type that names
    [application/json], the metadata query of an existing job raises as soon
    as the log of the run exists: [TypeError] once the log is read (the
    registry row takes no assignment), [UnicodeDecodeError] when the log
    does not decode.  It raises without an answer when the registry has no
    record of the id.  Without the log and with a record, a model with a
    discretisation, and a job directory, it answers the document of the job:
    state and message of the first registry row of the id, the entries of the
    directory, the times of the head reader, and for each of the [nlay]
    layers the list of the result types, in which head always stands and
    budget, concentration and drawdown stand when their readers report a
    time. *)
Theorem metadata_as_json req ct id w c0 cfg data mt :
  content_type req = Some ct ->
  str_contains "application/json" ct = true ->
  fs w !! modflow_file_of id = Some (File c0) ->
  json_loads_text E c0 = Some cfg ->
  sub_documents cfg = Some (data, mt) ->
  let folder := target_directory_of id in
  let logfile := os_path_join folder "modflow.log" in
  (forall c, fs w !! logfile = Some (File c) ->
     calculation_details E req id w
     = (Raise (match decode E c with Some _ => ExType | None => ExUnicodeDecode end), w))
  /\ (fs w !! logfile = None ->
      fst (get_calculation_by_id id w) = Val None ->
      exists e, fst (calculation_details E req id w) = Raise e)
  /\ (forall r model dis start unit n,
        fs w !! logfile = None ->
        fs w !! folder = Some Dir ->
        fst (get_calculation_by_id id w) = Val (Some r) ->
        data = JDict model ->
        assoc "dis" model = Some (JDict dis) ->
        assoc "start_datetime" dis = Some start ->
        assoc "itmuni" dis = Some unit ->
        assoc "nlay" dis = Some (JNum n) ->
        let have k := bool_decide (0 < length (times (reader_of E k (fs w) folder)))%nat in
        let lv := ["head"]
                  ++ (if have KBudget then ["budget"] else [])
                  ++ (if have KConcentration then ["concentration"] else [])
                  ++ (if have KDrawdown then ["drawdown"] else []) in
        fst (calculation_details E req id w)
        = Val (Body (json_dumps E
            (JDict [("calculation_id", JStr id);
                    ("state", JNum (state r));
                    ("message", from_option JStr JNull (message r));
                    ("files", JList (map JStr (map fst (entries_of (fs w) folder))));
                    ("times",
                     JDict [("start_date_time", start); ("time_unit", unit);
                            ("total_times",
                             JList (map JFloat (times (reader_of E KHead (fs w) folder))))]);
                    ("layer_values",
                     JList (replicate (Z.to_nat n) (JList (map JStr lv))))])))).
Proof.
  intros Hct Hjson Hf Hl Hs folder logfile.
  assert (ct <> "") as Hne by (intros ->; discriminate).
  apply String.eqb_neq in Hne.
  assert (calculation_details E req id w
          = get_calculation_details_json E id data folder w) as Heq.
  { unfold calculation_details. cbv zeta.
    rewrite (stored_model id _ _ cfg data mt Hf Hl Hs). now rewrite Hct, Hne, Hjson. }
  rewrite Heq. clear Heq. unfold get_calculation_details_json. fold logfile.
  split; [| split].
  - intros c Hlog. erewrite bind_Val by reflexivity.
    erewrite bind_Val by (unfold os_path_isfile, gets; rewrite Hlog; reflexivity).
    cbn [when]. unfold read_text, read_bytes, bind, gets. rewrite Hlog. cbn.
    now destruct (decode E c).
  - intros Hlog Hnone. unfold get_calculation_by_id, gets in Hnone. cbn [fst] in Hnone.
    injection Hnone as Hnone.
    erewrite bind_Val by (unfold get_calculation_by_id, gets; rewrite Hnone; reflexivity).
    erewrite bind_Val by (unfold os_path_isfile, gets; rewrite Hlog; reflexivity).
    cbn [when]. erewrite bind_Val by reflexivity.
    revert w Hf Hlog Hnone.
    assert (forall d : json, forall k folder, avoids d (read_times E k folder)) as Hread
      by (intros; repeat avoid_more).
    assert (forall (d o : json) key, avoids d (py_item o key)) as Hitem
      by (intros; repeat avoid_more).
    assert (forall (d o : json), avoids d (range_length o)) as Hrange
      by (intros; repeat avoid_more).
    intros w _ _ _. revert w.
    do 4 (apply ends_raising_bind; [intros; apply Hread | intros ?]).
    do 6 (apply ends_raising_bind; [intros; apply Hitem | intros ?]).
    apply ends_raising_bind; [intros; apply Hrange | intros ?].
    intros w. now exists ExType.
  - intros r model dis start unit n Hlog Hfolder Hr -> Hdis Hstart Hunit Hnlay.
    unfold get_calculation_by_id, gets in Hr. cbn [fst] in Hr. injection Hr as Hr.
    erewrite bind_Val by (unfold get_calculation_by_id, gets; rewrite Hr; reflexivity).
    erewrite bind_Val by (unfold os_path_isfile, gets; rewrite Hlog; reflexivity).
    cbn [when]. erewrite bind_Val by reflexivity.
    do 4 (erewrite bind_Val by apply read_times_run).
    erewrite bind_Val by (unfold py_item; rewrite Hdis; reflexivity).
    erewrite bind_Val by (unfold py_item; rewrite Hstart; reflexivity).
    erewrite bind_Val by (unfold py_item; rewrite Hdis; reflexivity).
    erewrite bind_Val by (unfold py_item; rewrite Hunit; reflexivity).
    erewrite bind_Val by (unfold py_item; rewrite Hdis; reflexivity).
    erewrite bind_Val by (unfold py_item; rewrite Hnlay; reflexivity).
    erewrite bind_Val by reflexivity.
    erewrite bind_Val by reflexivity.
    erewrite bind_Val by reflexivity.
    erewrite bind_Val.
    2:{ unfold os_listdir, bind, gets. cbn [fs log].
        rewrite is_dir_target. unfold folder in Hfolder. rewrite Hfolder. reflexivity. }
    reflexivity.
Qed.

End Properties.

(** ** The theorems at the sample worlds *)

Lemma sample_names_id : names_id (sample_document "sim-001") "sim-001".
Proof. eexists. split; reflexivity. Qed.

Lemma sample_plain : plain_component "sim-002".
Proof. repeat split; discriminate. Qed.

(** C1 at the queued job sim-001, which has no marker. *)
Lemma resubmit_abandoned_raises_witness :
  upload_file sample_env (inline_request sample_payload) queued_world
  = (Raise ExFileNotFound,
     set_fs (purge (target_directory_of "sim-001") (fs queued_world)) queued_world)
  /\ db (snd (upload_file sample_env (inline_request sample_payload) queued_world))
     = one_record
  /\ (fs queued_world !! target_directory_of "sim-001" = Some Dir ->
      fs (snd (upload_file sample_env (inline_request sample_payload) queued_world))
        !! target_directory_of "sim-001" = None
      /\ fs (snd (upload_file sample_env (inline_request sample_payload) queued_world))
           !! modflow_file_of "sim-001" = None).
Proof.
  apply (resubmit_abandoned_raises sample_env sample_payload (sample_document "sim-001")
           "sim-001" queued_world (File sample_payload)).
  - vm_compute; reflexivity.
  - vm_compute; reflexivity.
  - exact sample_names_id.
  - vm_compute; reflexivity.
  - vm_compute; reflexivity.
Defined.

(** C2 at the finished job sim-001. *)
Lemma resubmit_finished_idempotent_witness :
  upload_file sample_env (inline_request sample_payload) finished_world
  = (Val (Body (json_dumps sample_env (identity "sim-001"))), finished_world)
  /\ forall w0 r w0',
       upload_file sample_env (inline_request sample_payload) w0 = (Val r, w0') ->
       r = Body (json_dumps sample_env (identity "sim-001")).
Proof.
  apply (resubmit_finished_idempotent sample_env sample_payload
           (sample_document "sim-001") "sim-001" finished_world (File sample_payload)
           "200").
  - vm_compute; reflexivity.
  - vm_compute; reflexivity.
  - exact sample_names_id.
  - vm_compute; reflexivity.
  - vm_compute; reflexivity.
  - reflexivity.
Defined.

(** C3: on the failed job the inline delivery purges, creates and inserts,
    while the upload is rejected and inserts nothing; on the finished job
    the inline delivery is accepted and the upload is rejected. *)
Lemma upload_has_no_resubmission :
  fst (upload_file sample_env (inline_request sample_payload) finished_world)
  = Val (Body "{'status': 200, 'calculation_id': 'sim-001', 'link': '/sim-001'}")
  /\ fst (upload_file sample_env (multipart_request "job.json" sample_payload) finished_world)
     = Abort 422 (JStr "Model with calculationId: sim-001 already exits.")
  /\ length (db (snd (upload_file sample_env (inline_request sample_payload) failed_world)))
     = 2%nat
  /\ length (db (snd (upload_file sample_env (multipart_request "job.json" sample_payload)
                        failed_world)))
     = 1%nat.
Proof. repeat split; vm_compute; reflexivity. Qed.

(** C3 (amended) at the submission of the new id sim-002 into the world of
    sim-001. *)
Lemma delivery_shapes_agree_on_new_ids_witness :
  let payload := sample_dumps (sample_document "sim-002") in
  let I := upload_file sample_env (inline_request payload) finished_world in
  let U := upload_file sample_env (multipart_request "job.json" payload) finished_world in
  fst I = Val (Body (json_dumps sample_env (identity "sim-002")))
  /\ fst U = Val (RedirectTo "/sim-002")
  /\ db (snd U) = db (snd I)
  /\ forall p : path,
       p <> temp_file_of sample_env finished_world -> fs (snd U) !! p = fs (snd I) !! p.
Proof.
  cbv zeta.
  refine (proj1 (proj2 (proj2
    (delivery_shapes_agree_on_new_ids sample_env "job.json"
       (sample_dumps (sample_document "sim-002")) (sample_document "sim-002") "sim-002"
       finished_world _ _ _ _ _ _)) _ _) _ _ _).
  - discriminate.
  - vm_compute; reflexivity.
  - vm_compute; reflexivity.
  - vm_compute; reflexivity.
  - vm_compute; reflexivity.
  - eexists. split; reflexivity.
  - vm_compute; reflexivity.
  - exact sample_plain.
  - vm_compute; reflexivity.
  - vm_compute; reflexivity.
  - right. vm_compute; reflexivity.
Defined.

(** C4: with the schema server out of reach the submission is not rejected
    as invalid: the exception of [urlopen] leaves the view. *)
Lemma unreachable_validator_is_no_rejection :
  upload_file unreachable_env (inline_request sample_payload) (world_of empty_fs [])
  = (Raise ExURL, world_of empty_fs []).
Proof. vm_compute; reflexivity. Qed.

(** C4 (amended) at the unreachable schema server, and at an upload after
    a download has moved the working directory. *)
Lemma validation_failure_outcomes_witness :
  upload_file unreachable_env (inline_request sample_payload) (world_of empty_fs [])
  = (Raise ExURL, world_of empty_fs [])
  /\ fst (upload_file unreachable_env (multipart_request "job.json" sample_payload)
            (world_of empty_fs []))
     = Raise ExURL
  /\ fst (upload_file sample_env (multipart_request "job.json" sample_payload) moved_world)
     = Raise ExFileNotFound.
Proof.
  pose proof (validation_failure_outcomes unreachable_env "job.json" sample_payload
                (sample_document "sim-001") (world_of empty_fs [])) as H.
  pose proof (validation_failure_outcomes sample_env "job.json" sample_payload
                (sample_document "sim-001") moved_world) as H'.
  cbv zeta in H, H'.
  destruct H as (HI & HU & _). destruct H' as (_ & HU' & _).
  split; [| split].
  - apply (proj2 (HI eq_refl) ExURL). vm_compute; reflexivity.
  - destruct HU as (HU & _); [discriminate | vm_compute; reflexivity |].
    destruct HU as (_ & HU); [vm_compute; reflexivity | vm_compute; reflexivity |].
    apply (HU ExURL). vm_compute; reflexivity.
  - destruct HU' as (_ & HU'); [discriminate | vm_compute; reflexivity |].
    apply HU'. vm_compute; reflexivity.
Defined.

(** C5: a layer beyond the count asked at an unknown time is rejected with
    the message of the time, not with the layer bound. *)
Lemma layer_rejection_yields_to_time :
  fst (get_results_head_drawdown sample_env "sim-001" "head" "7" "9.0" queued_world)
  = Abort 404 (JStr "Totim: 9.0 not available. Available totims are: 1.0, 2.0").
Proof. vm_compute; reflexivity. Qed.

(** C5 (amended) at layer 7 of three, once at an unknown and once at a known
    time. *)
Lemma layer_beyond_count_rejected_witness :
  fst (get_results_head_drawdown sample_env "sim-001" "head" "7" "9.0" queued_world)
  = Abort 404 (totim_not_available sample_env 9%float [1%float; 2%float])
  /\ fst (get_results_head_drawdown sample_env "sim-001" "drawdown" "7" "2.0" queued_world)
     = Abort 404 (layer_too_large 3).
Proof.
  split.
  - refine (proj1 (layer_beyond_count_rejected sample_env "sim-001" "head" "7" "9.0"
                     queued_world (File sample_payload) 9%float 7 KHead _ _ _ _ _));
      vm_compute; congruence.
  - refine (proj1 (layer_beyond_count_rejected sample_env "sim-001" "drawdown" "7" "2.0"
                     queued_world (File sample_payload) 2%float 7 KDrawdown _ _ _ _ _));
      vm_compute; congruence.
Defined.

(** C6: a negative layer is not rejected and reaches the reader, and the
    time-series query hands a layer beyond the count and a negative row to
    the reader. *)
Lemma negative_and_unchecked_selectors_reach_the_reader :
  get_results_head_drawdown sample_env "sim-001" "head" "-1" "1.0" queued_world
  = (Val (Body "[-1]"),
     log (RdLayer KHead 1%float (-1)) (log (RdLayers KHead) (log (RdTimes KHead) queued_world)))
  /\ get_results_time_series sample_env "sim-001" "head" "7" "-2" "3" queued_world
     = (Val (Body "[7, -2, 3]"), log (RdTs KHead 7 (-2) 3) queued_world)
  /\ fst (get_results_budget_by_idx sample_env "sim-001" "-1" queued_world)
     = Val (Body "{'cumulative': -1, 'incremental': -1}").
Proof. repeat split; vm_compute; reflexivity. Qed.

(** C6 (amended) at layer -1, row -2, column 3, index 2 and substance 7. *)
Lemma selectors_checked_from_above_witness :
  get_results_head_drawdown sample_env "sim-001" "head" "-1" "1.0" queued_world
  = (answer sample_env (layer_array sample_reader 1%float (-1)),
     log (RdLayer KHead 1%float (-1)) (log (RdLayers KHead) (log (RdTimes KHead) queued_world)))
  /\ fst (get_results_budget_by_idx sample_env "sim-001" "2" queued_world)
     = Abort 404 (JStr "TotimKey: 2 not available. Available keys are in between: 0 and 1").
Proof.
  pose proof (selectors_checked_from_above sample_env "sim-001" queued_world
                (File sample_payload) "head" KHead "-1" (-1) "-2" (-2) "3" 3 "1.0" 1%float
                "2" 2 "7" 7) as H.
  cbv zeta in H.
  destruct H as (_ & Hneg & _ & Hidx & _); try (vm_compute; reflexivity).
  split.
  - apply Hneg; vm_compute; congruence.
  - exact Hidx.
Defined.

(** C7: the concentration query checks the substance first, so an unknown
    time asked with a substance beyond the count is answered without the
    list of the times. *)
Lemma unknown_time_behind_unknown_substance :
  fst (get_results_concentration sample_env "sim-001" "7" "0" "9.0" queued_world)
  = Abort 404 (JStr "Substance: 7 not available. Number of substances: 1.").
Proof. vm_compute; reflexivity. Qed.

(** C7 (amended) at the unknown time 9.0. *)
Lemma unknown_time_not_found_witness :
  fst (get_results_head_drawdown sample_env "sim-001" "head" "0" "9.0" queued_world)
  = Abort 404 (JStr "Totim: 9.0 not available. Available totims are: 1.0, 2.0")
  /\ fst (get_results_budget_by_totim sample_env "sim-001" "9.0" queued_world)
     = Abort 404 (JStr "Totim: 9.0 not available. Available totims are: 1.0, 2.0")
  /\ fst (get_results_concentration sample_env "sim-001" "0" "0" "9.0" queued_world)
     = Abort 404 (JStr "Totim: 9.0 not available. Available totims are: 1.0, 2.0").
Proof.
  pose proof (unknown_time_not_found sample_env "sim-001" queued_world
                (File sample_payload) "head" KHead "0" 0 "9.0" 9%float "0" 0) as H.
  cbv zeta in H.
  destruct H as (Hs & Hb & Hc); try (vm_compute; reflexivity).
  rewrite Hs, Hb, Hc by (vm_compute; reflexivity).
  repeat split.
Defined.

(** C8: a listing written with DOS line ends has no zero byte, and is not
    given back as it is in the file: every [CR LF] comes back as [LF]; and a
    file of one byte that is neither zero nor seven-bit text is not given
    back at all under a seven-bit decoder. *)
Lemma text_mode_read_is_not_verbatim :
  fs (world_of listed_fs one_record) !! os_path_join (target_directory_of "sim-001") "mf.list"
  = Some (File dos_text)
  /\ existsb (Ascii.eqb zero_byte) (list_ascii_of_string dos_text) = false
  /\ get_file sample_env "sim-001" "mf.list" (world_of listed_fs one_record)
     = (Val (file_answer sample_env "mf.list" unix_text), world_of listed_fs one_record)
  /\ unix_text <> dos_text
  /\ existsb (Ascii.eqb zero_byte) (list_ascii_of_string high_byte) = false
  /\ get_file strict_env "sim-001" "mf.bin" (world_of listed_fs one_record)
     = (Raise ExUnicodeDecode, world_of listed_fs one_record).
Proof.
  split; [vm_compute; reflexivity |].
  split; [vm_compute; reflexivity |].
  split; [vm_compute; reflexivity |].
  split; [discriminate |].
  split; vm_compute; reflexivity.
Qed.

(** C8 (amended) at the listing of sim-001 (no zero byte, no carriage
    return), at its head file (a zero byte in its second line) and at the
    listing written with DOS line ends. *)
Lemma file_shown_as_read_in_text_mode_witness :
  get_file sample_env "sim-001" "mf.list" (world_of mixed_fs one_record)
  = (Val (file_answer sample_env "mf.list" "listing"), world_of mixed_fs one_record)
  /\ get_file sample_env "sim-001" "mf.hds" (world_of mixed_fs one_record)
     = (Val (file_answer sample_env "mf.hds" binary_notice), world_of mixed_fs one_record)
  /\ get_file sample_env "sim-001" "mf.list" (world_of listed_fs one_record)
     = (Val (file_answer sample_env "mf.list" unix_text), world_of listed_fs one_record).
Proof.
  split; [| split].
  - refine (proj2 (proj2 (file_shown_as_read_in_text_mode sample_env "sim-001" "mf.list"
                            (world_of mixed_fs one_record) "listing" _)) _ _ _).
    + vm_compute; reflexivity.
    + vm_compute. intuition discriminate.
    + reflexivity.
    + vm_compute; reflexivity.
  - refine (proj1 (file_shown_as_read_in_text_mode sample_env "sim-001" "mf.hds"
                     (world_of mixed_fs one_record) _ _) _).
    + vm_compute; reflexivity.
    + vm_compute. tauto.
  - refine (proj1 (proj2 (file_shown_as_read_in_text_mode sample_env "sim-001" "mf.list"
                            (world_of listed_fs one_record) dos_text _)) _).
    + vm_compute; reflexivity.
    + vm_compute. intuition discriminate.
Defined.


(** The first submission of sim-002 into the world of sim-001. *)
Lemma first_submission_creates_job_witness :
  let R := upload_file sample_env
             (inline_request (sample_dumps (sample_document "sim-002"))) finished_world in
  fst R = Val (Body "{'status': 200, 'calculation_id': 'sim-002', 'link': '/sim-002'}")
  /\ fs (snd R) !! target_directory_of "sim-002" = Some Dir
  /\ length (db (snd R)) = 2%nat.
Proof.
  cbv zeta.
  destruct (first_submission_creates_job sample_env
              (sample_dumps (sample_document "sim-002")) (sample_document "sim-002")
              "sim-002" finished_world) as (HR & Hdir & _ & (t1 & t2 & Hdb) & _).
  - vm_compute; reflexivity.
  - vm_compute; reflexivity.
  - eexists. split; reflexivity.
  - exact sample_plain.
  - vm_compute; reflexivity.
  - vm_compute; reflexivity.
  - right. vm_compute; reflexivity.
  - split; [exact HR | split; [exact Hdir | now rewrite Hdb]].
Defined.

(** The resubmission of the failed job sim-001. *)
Lemma resubmit_failed_recreates_witness :
  let R := upload_file sample_env (inline_request sample_payload) failed_world in
  fst R = Val (Body "{'status': 200, 'calculation_id': 'sim-001', 'link': '/sim-001'}")
  /\ fs (snd R) !! state_log_of "sim-001" = None
  /\ length (db (snd R)) = 2%nat.
Proof.
  cbv zeta.
  destruct (resubmit_failed_recreates sample_env sample_payload (sample_document "sim-001")
              "sim-001" failed_world (File sample_payload) "400" "400")
    as (HR & _ & Hlog & (t1 & t2 & Hdb)).
  - vm_compute; reflexivity.
  - vm_compute; reflexivity.
  - exact sample_names_id.
  - vm_compute; reflexivity.
  - vm_compute; reflexivity.
  - vm_compute; reflexivity.
  - reflexivity.
  - discriminate.
  - right. vm_compute; reflexivity.
  - split; [exact HR | split; [exact Hlog | now rewrite Hdb]].
Defined.

(** The archive of a job directory without subdirectories. *)
Lemma archive_has_no_configuration_document_witness :
  fst (get_download_model "sim-001" (world_of mixed_fs one_record))
  = Val (Attachment "application/zip"
           [("mf.list", "listing");
            ("mf.hds", String "a" (String "010" (String "000" (String "b" EmptyString))))]
           "model-calculation-sim-001.zip")
  /\ Forall (fun entry => str_endswith ".json" (fst entry) = false)
       [("mf.list", "listing");
        ("mf.hds", String "a" (String "010" (String "000" (String "b" EmptyString))))].
Proof.
  split; [vm_compute; reflexivity |].
  apply (archive_has_no_configuration_document "sim-001" (world_of mixed_fs one_record)
           "application/zip" _ "model-calculation-sim-001.zip"
           (snd (get_download_model "sim-001" (world_of mixed_fs one_record)))).
  vm_compute; reflexivity.
Defined.

(** Three inline submissions of sim-002 in a row. *)
Lemma resubmit_before_the_run_witness :
  let payload := sample_dumps (sample_document "sim-002") in
  let R1 := upload_file sample_env (inline_request payload) finished_world in
  let R2 := upload_file sample_env (inline_request payload) (snd R1) in
  let R3 := upload_file sample_env (inline_request payload) (snd R2) in
  fst R2 = Raise ExFileNotFound
  /\ fs (snd R2) !! modflow_file_of "sim-002" = None
  /\ length (db (snd R3)) = 3%nat.
Proof.
  cbv zeta.
  destruct (resubmit_before_the_run sample_env (sample_dumps (sample_document "sim-002"))
              (sample_document "sim-002") "sim-002" finished_world)
    as (_ & H2 & _ & Hcfg & _ & _ & _ & Hlen).
  - vm_compute; reflexivity.
  - vm_compute; reflexivity.
  - eexists. split; reflexivity.
  - exact sample_plain.
  - vm_compute; reflexivity.
  - vm_compute; reflexivity.
  - vm_compute; reflexivity.
  - right. vm_compute; reflexivity.
  - split; [exact H2 | split; [exact Hcfg | exact Hlen]].
Defined.

(** The resubmission of sim-001 after its failed run. *)
Lemma resubmission_keeps_first_record_witness :
  fst (get_calculation_by_id "sim-001"
         (snd (upload_file sample_env (inline_request sample_payload)
                 (world_of failed_fs [failed_record]))))
  = Val (Some failed_record).
Proof.
  refine (proj1 (resubmission_keeps_first_record sample_env sample_payload
                   (sample_document "sim-001") "sim-001"
                   (world_of failed_fs [failed_record]) (File sample_payload) "400" "400"
                   failed_record _ _ _ _ _ _ _ _ _ _)).
  - vm_compute; reflexivity.
  - vm_compute; reflexivity.
  - exact sample_names_id.
  - vm_compute; reflexivity.
  - vm_compute; reflexivity.
  - vm_compute; reflexivity.
  - reflexivity.
  - discriminate.
  - right. vm_compute; reflexivity.
  - vm_compute; reflexivity.
Defined.

(** The upload of sim-001 while its job exists: the saved file stays; and
    the same upload after a download has moved the working directory:
    nothing is saved. *)
Lemma saved_upload_stays_witness :
  fs (snd (upload_file sample_env (multipart_request "job.json" sample_payload)
             finished_world))
    !! temp_file_of sample_env finished_world
  = Some (File sample_payload)
  /\ upload_file sample_env (multipart_request "job.json" sample_payload) moved_world
       = (Raise ExFileNotFound, draw moved_world).
Proof.
  split.
  - destruct (saved_upload_stays sample_env "job.json" sample_payload finished_world)
      as (_ & H).
    + discriminate.
    + vm_compute; reflexivity.
    + destruct (H eq_refl) as (_ & H').
      destruct (H' (sample_document "sim-001")) as (_ & _ & Hv); [vm_compute; reflexivity |].
      destruct (Hv eq_refl "sim-001" sample_names_id) as (Hex & _).
      * repeat split; discriminate.
      * apply (Hex (File sample_payload)). vm_compute; reflexivity.
  - destruct (saved_upload_stays sample_env "job.json" sample_payload moved_world)
      as (H & _).
    + discriminate.
    + vm_compute; reflexivity.
    + destruct H as (H1 & H2); [vm_compute; reflexivity |].
      apply injective_projections; [exact H1 | vm_compute; reflexivity].
Defined.

Lemma anonymous_has_no_id id : ~ names_id anonymous_document id.
Proof. intros (d & Heq & Hid). injection Heq as <-. discriminate Hid. Qed.

(** The submission of the document without id. *)
Lemma valid_document_without_id_witness :
  upload_file anonymous_env (inline_request "{}") queued_world = (Raise ExType, queued_world).
Proof.
  apply (valid_document_without_id anonymous_env "{}" anonymous_document queued_world).
  - reflexivity.
  - vm_compute; reflexivity.
  - exact anonymous_has_no_id.
Defined.

(** A head slice at a time that parses to NaN. *)
Lemma nan_time_is_never_found_witness :
  fst (get_results_head_drawdown nan_env "sim-001" "head" "0" "nan" queued_world)
  = Abort 404 (totim_not_available nan_env nan [1%float; 2%float]).
Proof.
  destruct (nan_time_is_never_found nan_env "sim-001" queued_world (File sample_payload)
              "head" KHead "0" 0 "nan") as (H & _); [vm_compute; reflexivity .. |].
  now rewrite H.
Defined.

(** A slice of the type budget. *)
Lemma selectors_parse_before_type_witness :
  get_results_head_drawdown sample_env "sim-001" "budget" "0" "1.0" queued_world
  = (Abort 404 (type_not_permitted "budget"), queued_world)
  /\ get_results_head_drawdown sample_env "sim-001" "head" "zero" "1.0" queued_world
     = (Raise ExValue, queued_world).
Proof.
  destruct (selectors_parse_before_type sample_env "sim-001" "budget" "0" "0" "0" "1.0"
              queued_world (File sample_payload)) as (_ & _ & Ht & _);
    [vm_compute; reflexivity |].
  destruct (selectors_parse_before_type sample_env "sim-001" "head" "zero" "0" "0" "1.0"
              queued_world (File sample_payload)) as (_ & Hl & _ & _);
    [vm_compute; reflexivity |].
  split.
  - apply (proj1 (Ht eq_refl) 1%float 0); vm_compute; reflexivity.
  - apply (proj1 (Hl eq_refl) 1%float). vm_compute; reflexivity.
Defined.

(** The configuration file of sim-001 is a JSON file. *)
Lemma valid_json_file_agrees_with_read_json_witness :
  valid_json_file sample_env (modflow_file_of "sim-001") queued_world = (Val true, queued_world)
  <-> exists j, read_json sample_env (modflow_file_of "sim-001") queued_world
                = (Val j, queued_world).
Proof.
  apply (valid_json_file_agrees_with_read_json sample_env (modflow_file_of "sim-001")
           sample_payload queued_world).
  vm_compute; reflexivity.
Defined.

(** A POST of plain text. *)
Lemma submission_dispatch_witness :
  upload_file sample_env
    {| method := "POST"; content_type := Some "text/plain"; files := []; body := "{}" |}
    queued_world
  = (Raise ExType, queued_world).
Proof.
  destruct (submission_dispatch sample_env
              {| method := "POST"; content_type := Some "text/plain"; files := [];
                 body := "{}" |} "text/plain" queued_world eq_refl) as (_ & H).
  destruct (H eq_refl) as (_ & _ & Hneither). now apply Hneither.
Defined.

(** The archive of the job directory with the listing and the head file. *)
Lemma flat_archive_is_exact_witness :
  exists z,
    fst (get_download_model "sim-001" (world_of mixed_fs one_record))
    = Val (Attachment "application/zip" z "model-calculation-sim-001.zip")
    /\ forall name c,
         (name, c) ∈ z
         <-> (mixed_fs !! os_path_join (target_directory_of "sim-001") name = Some (File c)
              /\ str_endswith ".json" name = false).
Proof.
  apply (flat_archive_is_exact "sim-001" (world_of mixed_fs one_record)).
  - vm_compute; reflexivity.
  - intros p Hp Hne Hd. cbn [fs world_of] in Hd.
    apply elem_of_map_to_list in Hd.
    set (l := map_to_list mixed_fs) in Hd. vm_compute in l. subst l.
    repeat (apply elem_of_cons in Hd as [Hd | Hd]; [injection Hd as -> |]);
      try discriminate.
    + destruct Hp as [k Hk]. discriminate Hk.
    + destruct Hp as [k Hk]. discriminate Hk.
    + now apply Hne.
    + now apply elem_of_nil in Hd.
Defined.

(** The page of sim-002 after its first submission. *)
Lemma details_after_submission_witness :
  fst (calculation_details sample_env (get_request None) "sim-002"
         (snd (upload_file sample_env
                 (inline_request (sample_dumps (sample_document "sim-002")))
                 finished_world)))
  = Val (Template "details.html"
           [("id", JStr "sim-002"); ("data", JDict [("dis", JDict [("nlay", JNum 3)])]);
            ("path", JStr "/modflow/sim-002")]).
Proof.
  rewrite (details_after_submission sample_env (sample_dumps (sample_document "sim-002"))
             (sample_document "sim-002") "sim-002" finished_world
             (JDict [("dis", JDict [("nlay", JNum 3)])]) JNull (get_request None)).
  - reflexivity.
  - vm_compute; reflexivity.
  - vm_compute; reflexivity.
  - eexists. split; reflexivity.
  - exact sample_plain.
  - vm_compute; reflexivity.
  - vm_compute; reflexivity.
  - right. vm_compute; reflexivity.
  - vm_compute; reflexivity.
  - reflexivity.
  - reflexivity.
Defined.

(** The metadata of sim-001 as JSON, while it is queued and while it runs. *)
Lemma metadata_as_json_witness :
  fst (calculation_details full_env (get_request (Some "application/json")) "sim-001"
         queued_world)
  = Val (Body ("{'calculation_id': 'sim-001', 'state': 0, 'message': null, "
               +:+ "'files': ['configuration.json'], "
               +:+ "'times': {'start_date_time': '2020-01-01', 'time_unit': 4, "
               +:+ "'total_times': [<float>, <float>]}, "
               +:+ "'layer_values': [['head', 'budget', 'concentration', 'drawdown'], "
               +:+ "['head', 'budget', 'concentration', 'drawdown']]}"))
  /\ calculation_details full_env (get_request (Some "application/json")) "sim-001"
       (world_of logged_fs one_record)
     = (Raise ExType, world_of logged_fs one_record).
Proof.
  split.
  - destruct (metadata_as_json full_env (get_request (Some "application/json"))
                "application/json" "sim-001" queued_world sample_payload full_document
                (JDict [("dis", JDict [("nlay", JNum 2); ("itmuni", JNum 4);
                                       ("start_datetime", JStr "2020-01-01")])]) JNull)
      as (_ & _ & H); [vm_compute; reflexivity .. |].
    rewrite (H (queued "sim-001" 0)
               [("dis", JDict [("nlay", JNum 2); ("itmuni", JNum 4);
                               ("start_datetime", JStr "2020-01-01")])]
               [("nlay", JNum 2); ("itmuni", JNum 4); ("start_datetime", JStr "2020-01-01")]
               (JStr "2020-01-01") (JNum 4) 2); vm_compute; reflexivity.
  - destruct (metadata_as_json full_env (get_request (Some "application/json"))
                "application/json" "sim-001" (world_of logged_fs one_record) sample_payload
                full_document
                (JDict [("dis", JDict [("nlay", JNum 2); ("itmuni", JNum 4);
                                       ("start_datetime", JStr "2020-01-01")])]) JNull)
      as (H & _); [vm_compute; reflexivity .. |].
    now rewrite (H "running") by (vm_compute; reflexivity).
Defined.

(** The insertion of sim-002 into the registry of sim-001. *)
Lemma insert_then_lookup_witness :
  fst (get_calculation_by_id "sim-002" (snd (insert_new_calculation sample_env "sim-002"
                                                queued_world)))
  = Val (Some (queued "sim-002" 0))
  /\ fst (get_calculation_by_id "sim-001" (snd (insert_new_calculation sample_env "sim-002"
                                                  queued_world)))
     = Val (Some (queued "sim-001" 0)).
Proof.
  destruct (insert_then_lookup sample_env "sim-002" "sim-001" queued_world)
    as (Hnew & Hold & _); [vm_compute; reflexivity |].
  split.
  - apply Hnew. vm_compute; reflexivity.
  - rewrite Hold; [vm_compute; reflexivity | vm_compute; reflexivity | discriminate].
Defined.
